(** * tpprl: recurrent temporal-point-process policy training

    A shallow embedding of the numeric core of [tpprl/exp_teacher.py] and
    [tpprl/exp_broadcaster.py], followed by the properties of that code.

    Conventions of the embedding.
    - Floating-point tensors are idealised as real numbers ([R]); overflow,
      infinities and NaN are outside the model.
    - A TensorFlow graph is read as the function it computes.  All batched
      operations of the training graphs act row by row, so a graph is
      modelled on one row of the batch (one trajectory) and a batch is a
      list of rows.
    - Column matrices of shape [(H, 1)] ([Wr], [Wt], [Bh], [vt], hidden
      states) are vectors of length [H]; one-element parameters ([wt],
      [bt]) are scalars.
    - Python exceptions are values of [exn] carried by [result].
    - Objects of the repository whose source is not part of the analysed
      files ([ExpCDFSampler], the simulation state of the broadcaster) and
      the random generator of numpy are interfaces (type classes); every
      property holds for all their implementations. *)

From Stdlib Require Import String Ascii DecimalString.
From Stdlib Require Import Reals Lra Lia Bool Arith ZArith List.
Import ListNotations.
Open Scope R_scope.

(** ** Python values and exceptions *)

Module Py.

Inductive exn : Type :=
| IndexError
| KeyError
| AssertionError
| AttributeError
| FileNotFoundError (msg : string).

Inductive result (A : Type) : Type :=
| Ok (a : A)
| Raise (e : exn).

Arguments Ok {A} a.
Arguments Raise {A} e.

Definition bind {A B : Type} (m : result A) (k : A -> result B) : result B :=
  match m with
  | Ok a => k a
  | Raise e => Raise e
  end.

(** [l[i]] for a non-negative index. *)
Definition getitem {A : Type} (l : list A) (i : nat) : result A :=
  match nth_error l i with
  | Some a => Ok a
  | None => Raise IndexError
  end.

Fixpoint update {A : Type} (l : list A) (i : nat) (v : A) : list A :=
  match l, i with
  | [], _ => []
  | _ :: l', O => v :: l'
  | a :: l', S i' => a :: update l' i' v
  end.

(** [l[i] = v] for a non-negative index. *)
Definition setitem {A : Type} (l : list A) (i : nat) (v : A) : result (list A) :=
  if (i <? length l)%nat then Ok (update l i v) else Raise IndexError.

(** The builtins [max(a, b)] and [min(a, b)]: the first argument is kept
    unless the second is strictly larger (smaller). *)
Definition max (a b : R) : R := if Rlt_dec a b then b else a.
Definition min (a b : R) : R := if Rlt_dec b a then b else a.

(** [a < b] as a Python boolean. *)
Definition ltb (a b : R) : bool := if Rlt_dec a b then true else false.
Definition leb (a b : R) : bool := if Rle_dec a b then true else false.

(** [float(b)] of a boolean. *)
Definition float_of_bool (b : bool) : R := if b then 1 else 0.

End Py.

Declare Scope py_scope.
Delimit Scope py_scope with py.
Notation "x <- m ;; k" := (Py.bind m (fun x => k))
  (at level 61, m at next level, right associativity) : py_scope.
Notation "' pat <- m ;; k" := (Py.bind m (fun x => match x with pat => k end))
  (at level 61, pat pattern, m at next level, right associativity) : py_scope.
Open Scope py_scope.

(** ** Vectors and matrices *)

Module Tensor.

Abbreviation vec := (list R).
Abbreviation mat := (list (list R)).

(** [tf.add_n], [tf.reduce_sum] and [np.sum] over one axis. *)
Definition sum (l : list R) : R := fold_right Rplus 0 l.

Definition mean (l : list R) : R := sum l / INR (length l).

Definition zeros (n : nat) : vec := repeat 0 n.

(** An elementwise binary operation on two tensors of one shape. *)
Fixpoint zip_with {A : Type} (f : A -> A -> A) (u v : list A) : list A :=
  match u, v with
  | x :: u', y :: v' => f x y :: zip_with f u' v'
  | _, _ => []
  end.

Definition vadd : vec -> vec -> vec := zip_with Rplus.
Definition vmul : vec -> vec -> vec := zip_with Rmult.
Definition scale (a : R) (v : vec) : vec := map (Rmult a) v.
Definition dot (u v : vec) : R := sum (vmul u v).
Definition madd : mat -> mat -> mat := zip_with vadd.
Definition mmul : mat -> mat -> mat := zip_with vmul.

(** [tf.reduce_mean(x, axis=0)] of a tensor given by its slices along axis
    0: the slices are added up and divided by their number. *)
Definition reduce_mean0_1 (k : nat) (x : list vec) : vec :=
  map (fun s => s / INR (length x)) (fold_right vadd (zeros k) x).

Definition reduce_mean0_2 (k1 k2 : nat) (x : list mat) : mat :=
  map (map (fun s => s / INR (length x)))
    (fold_right madd (repeat (zeros k2) k1) x).

(** [M.dot(v)] for a matrix given by its rows. *)
Definition matvec (M : mat) (v : vec) : vec := map (fun row => dot row v) M.

(** Row [i] of [M] ([tf.nn.embedding_lookup]); an index outside [M],
    which TensorFlow rejects, reads a row of zeros here. *)
Definition row (H : nat) (M : mat) (i : nat) : vec := nth i M (zeros H).

End Tensor.

(** ** numpy's random generator

    [np.random.RandomState(seed)] is a deterministic source of draws; its
    algorithm is irrelevant here, so the generator is an interface. *)

Class NumpyRandom : Type := {
  RandomState : Type;
  (** [np.random.RandomState(seed)] *)
  RandomState_seed : Z -> RandomState;
  (** [RS.rand()]: a draw and the advanced generator *)
  rand : RandomState -> R * RandomState;
  (** [RS.choice(np.arange(n), p=p)] *)
  choice : RandomState -> nat -> list R -> nat * RandomState
}.

(** ** [exp_teacher]: module constants *)

Definition MAX_EVENTS : nat := 100000.

(** ** [exp_teacher.Student] *)

Module Student.
Section Student.
Context {rng : NumpyRandom}.

Record t : Type := mk {
  ns : list R;
  alphas : list R;
  betas : list R;
  seed : Z;
  last_review_times : list R;
  RS : RandomState
}.

Definition init (n_0s alphas betas : list R) (seed : Z) : t :=
  {| ns := n_0s;
     alphas := alphas;
     betas := betas;
     seed := seed;
     last_review_times := Tensor.zeros (length n_0s);
     RS := RandomState_seed seed |}.

(** A decay rate within the bounds enforced by [review]. *)
Definition rate_ok (n : R) : Prop := 1e-6 <= n <= 1e2.

Definition recall (s : t) (item : nat) (time : R) : Py.result (bool * t) :=
  n <- Py.getitem (ns s) item ;;
  l <- Py.getitem (last_review_times s) item ;;
  let m_t := exp (- (n * (time - l))) in
  let '(u, rs) := rand (RS s) in
  Py.Ok (Py.ltb u m_t,
         {| ns := ns s; alphas := alphas s; betas := betas s; seed := seed s;
            last_review_times := last_review_times s; RS := rs |}).

Definition set_ns (s : t) (item : nat) (v : R) : Py.result t :=
  l <- Py.setitem (ns s) item v ;;
  Py.Ok {| ns := l; alphas := alphas s; betas := betas s; seed := seed s;
           last_review_times := last_review_times s; RS := RS s |}.

Definition review (s : t) (item : nat) (cur_time : R) : Py.result (bool * t) :=
  '(recall, s) <- recall s item cur_time ;;
  s <- (if recall : bool then
          n <- Py.getitem (ns s) item ;;
          a <- Py.getitem (alphas s) item ;;
          set_ns s item (n * (1 - a))
        else
          n <- Py.getitem (ns s) item ;;
          b <- Py.getitem (betas s) item ;;
          set_ns s item (n * (1 + b))) ;;
  n <- Py.getitem (ns s) item ;;
  s <- set_ns s item (Py.min (Py.max 1e-6 n) 1e2) ;;
  l <- Py.setitem (last_review_times s) item cur_time ;;
  Py.Ok (recall,
         {| ns := ns s; alphas := alphas s; betas := betas s; seed := seed s;
            last_review_times := l; RS := RS s |}).

(** A sequence of calls [review(item, cur_time)], in order. *)
Fixpoint reviews (s : t) (calls : list (nat * R)) : Py.result t :=
  match calls with
  | [] => Py.Ok s
  | (item, cur_time) :: rest =>
      '(_, s) <- review s item cur_time ;;
      reviews s rest
  end.

End Student.
End Student.

(** ** [exp_sampler.ExpCDFSampler]

    The sampler of the intensity [u(t) = exp(c + wt * (t - t_min))] is used
    by the simulators through its constructor, its attribute [c] and two
    methods; it is an interface here. *)

Class ExpCDFSamplerSig : Type := {
  Sampler : Type;
  (** [ExpCDFSampler(vt, wt, bt, init_h, t_min, seed)] *)
  ExpCDFSampler : Tensor.vec -> R -> R -> Tensor.vec -> R -> Z -> Sampler;
  (** the attribute [c] *)
  sampler_c : Sampler -> R;
  (** [generate_sample()]: the next absolute event time *)
  generate_sample : Sampler -> R * Sampler;
  (** [register_event(time, new_h, own_event)]: the next absolute event time *)
  register_event : Sampler -> R -> Tensor.vec -> bool -> R * Sampler
}.

(** ** [exp_teacher.Scenario] *)

Module Scenario.
Section Scenario.
Context {rng : NumpyRandom} {smp : ExpCDFSamplerSig}.

Record t : Type := mk {
  student : Student.t;
  Wm : Tensor.mat;
  Wh : Tensor.mat;
  Wr : Tensor.vec;
  Wt : Tensor.vec;
  Bh : Tensor.vec;
  Vy : Tensor.mat;
  num_items : nat;
  _init : bool;
  cur_h : Tensor.vec;
  T : R;
  RS : RandomState;
  last_time : R;
  c_is : list R;
  hidden_states : list Tensor.vec;
  time_deltas : list R;
  recalls : list R;
  items : list nat;
  exp_sampler : Sampler
}.

Definition init (alphas betas : list R) (seed : Z)
    (Wm Wh : Tensor.mat) (Wr Wt Bh : Tensor.vec) (Vy : Tensor.mat)
    (wt : R) (vt : Tensor.vec) (bt : R) (init_h : Tensor.vec) (T : R) : t :=
  let n_0s := map (fun _ => 1) alphas in
  {| student := Student.init n_0s alphas betas (seed * 2);
     Wm := Wm; Wh := Wh; Wr := Wr; Wt := Wt; Bh := Bh; Vy := Vy;
     num_items := length n_0s;
     _init := false;
     cur_h := init_h;
     T := T;
     RS := RandomState_seed seed;
     last_time := -1;
     c_is := [];
     hidden_states := [];
     time_deltas := [];
     recalls := [];
     items := [];
     exp_sampler := ExpCDFSampler vt wt bt init_h 0 (seed + 1) |}.

Definition get_last_interval (s : t) : Py.result R :=
  if _init s then Py.Ok (T s - last_time s) else Py.Raise Py.AssertionError.

Definition get_all_time_deltas (s : t) : Py.result (list R) :=
  if _init s then Py.Ok (time_deltas s ++ [T s - last_time s])
  else Py.Raise Py.AssertionError.

Definition get_num_events (s : t) : Py.result nat :=
  if _init s then Py.Ok (length (c_is s)) else Py.Raise Py.AssertionError.

(** The module-level [softmax]. *)
Definition softmax (x : Tensor.vec) : Tensor.vec :=
  let x_max := fold_right Py.max (hd 0 x) x in
  let e_x := map (fun a => exp (a - x_max)) x in
  map (fun e => e / Tensor.sum e_x) e_x.

(** [Vy.T.dot(h)] for [Vy] given by its [H] rows of length [n]. *)
Definition transpose_dot (n : nat) (M : Tensor.mat) (h : Tensor.vec) : Tensor.vec :=
  fold_right Tensor.vadd (Tensor.zeros n)
    (map (fun '(a, r) => Tensor.scale a r) (combine h M)).

(** [update_hidden_state(item, t, time_delta)]: the new hidden state and the
    scenario with the student and [recalls] updated. *)
Definition update_hidden_state (s : t) (item : nat) (time time_delta : R)
  : Py.result (Tensor.vec * t) :=
  '(r, st) <- Student.review (student s) item time ;;
  let recall := Py.float_of_bool r in
  e <- Py.getitem (Wm s) item ;;
  let h :=
    map tanh
      (Tensor.vadd (Tensor.vadd (Tensor.vadd (Tensor.vadd
         e
         (Tensor.matvec (Wh s) (cur_h s)))
         (Tensor.scale recall (Wr s)))
         (Tensor.scale time_delta (Wt s)))
         (Bh s)) in
  Py.Ok (h,
    {| student := st;
       Wm := Wm s; Wh := Wh s; Wr := Wr s; Wt := Wt s; Bh := Bh s; Vy := Vy s;
       num_items := num_items s; _init := _init s; cur_h := cur_h s; T := T s;
       RS := RS s; last_time := last_time s; c_is := c_is s;
       hidden_states := hidden_states s; time_deltas := time_deltas s;
       recalls := recalls s ++ [recall]; items := items s;
       exp_sampler := exp_sampler s |}).

(** [generate_sample()]: the pair [(t_next, item_next)]. *)
Definition generate_sample (s : t) : (R * nat) * t :=
  let '(t_next, sm) := @generate_sample smp (exp_sampler s) in
  let p := softmax (transpose_dot (num_items s) (Vy s) (cur_h s)) in
  let '(item_next, rs) := choice (RS s) (num_items s) p in
  ((t_next, item_next),
    {| student := student s;
       Wm := Wm s; Wh := Wh s; Wr := Wr s; Wt := Wt s; Bh := Bh s; Vy := Vy s;
       num_items := num_items s; _init := _init s; cur_h := cur_h s; T := T s;
       RS := rs; last_time := last_time s; c_is := c_is s;
       hidden_states := hidden_states s; time_deltas := time_deltas s;
       recalls := recalls s; items := items s;
       exp_sampler := sm |}).

(** The first five statements of the loop body of [run]: the event at
    [t_next] is recorded and [last_time] is set to the time [t] of the event
    before it. *)
Definition record_event (s : t) (time t_next : R) (item_next : nat) : t :=
  {| student := student s;
     Wm := Wm s; Wh := Wh s; Wr := Wr s; Wt := Wt s; Bh := Bh s; Vy := Vy s;
     num_items := num_items s; _init := _init s; cur_h := cur_h s; T := T s;
     RS := RS s;
     last_time := time;
     c_is := c_is s ++ [sampler_c (exp_sampler s)];
     hidden_states := hidden_states s ++ [cur_h s];
     time_deltas := time_deltas s ++ [t_next - time];
     recalls := recalls s;
     items := items s ++ [item_next];
     exp_sampler := exp_sampler s |}.

(** The rest of the loop body: hidden state, sampler, next sample. *)
Definition advance (s : t) (t_next : R) (item_next : nat) (time_delta : R)
  : Py.result ((R * nat) * t) :=
  '(h, s) <- update_hidden_state s item_next t_next time_delta ;;
  let '(_, sm) := register_event (exp_sampler s) t_next h true in
  Py.Ok (generate_sample
    {| student := student s;
       Wm := Wm s; Wh := Wh s; Wr := Wr s; Wt := Wt s; Bh := Bh s; Vy := Vy s;
       num_items := num_items s; _init := _init s; cur_h := h; T := T s;
       RS := RS s; last_time := last_time s; c_is := c_is s;
       hidden_states := hidden_states s; time_deltas := time_deltas s;
       recalls := recalls s; items := items s;
       exp_sampler := sm |}).

(** [idx < max_events], where [None] is [float('inf')]. *)
Definition below (idx : nat) (max_events : option nat) : bool :=
  match max_events with
  | Some m => (idx <? m)%nat
  | None => true
  end.

(** The [while] loop of [run]; [None] when [fuel] iterations do not reach
    the end of the loop. *)
Fixpoint run_loop (fuel : nat) (max_events : option nat) (idx : nat)
    (time t_next : R) (item_next : nat) (s : t) : option (Py.result t) :=
  if below idx max_events && Py.ltb t_next (T s) then
    match fuel with
    | O => None
    | S fuel' =>
        let s := record_event s time t_next item_next in
        match advance s t_next item_next (t_next - time) with
        | Py.Raise e => Some (Py.Raise e)
        | Py.Ok ((t_next', item_next'), s') =>
            run_loop fuel' max_events (S idx) t_next t_next' item_next' s'
        end
    end
  else Some (Py.Ok s).

Definition set_init (s : t) : t :=
  {| student := student s;
     Wm := Wm s; Wh := Wh s; Wr := Wr s; Wt := Wt s; Bh := Bh s; Vy := Vy s;
     num_items := num_items s; _init := true; cur_h := cur_h s; T := T s;
     RS := RS s; last_time := last_time s; c_is := c_is s;
     hidden_states := hidden_states s; time_deltas := time_deltas s;
     recalls := recalls s; items := items s;
     exp_sampler := exp_sampler s |}.

(** [run(max_events)]. *)
Definition run (fuel : nat) (s : t) (max_events : option nat)
  : option (Py.result t) :=
  if _init s then Some (Py.Raise Py.AssertionError)
  else
    let s := set_init s in
    let '((t_next, item_next), s) := generate_sample s in
    run_loop fuel max_events 0 0 t_next item_next s.

(** The fields of the scenario that the accounting of time reads. *)
Definition same_clock (s s' : t) : Prop :=
  T s' = T s /\
  time_deltas s' = time_deltas s /\
  last_time s' = last_time s /\
  _init s' = _init s.

(** The relation kept by the loop of [run] between the time [time] of the
    latest event and the scenario: the recorded deltas add up to [time],
    and [last_time] lags one event behind, [time - last_time] being the
    latest recorded delta ([1] before any event, from the initial
    [last_time = -1]). *)
Definition lagging (time : R) (s : t) : Prop :=
  Tensor.sum (time_deltas s) = time /\
  time - last_time s = last (time_deltas s) 1.

End Scenario.
End Scenario.

(** ** The simulation environment ([redqueen])

    Events, simulation options and data frames are data; the world state
    kept by [OM.Broadcaster] is an interface. *)

Module Event.
Record t : Type := mk {
  src_id : nat;
  cur_time : R;
  time_delta : R
}.
End Event.

Module SimOpts.
Record t : Type := mk {
  src_id : nat;
  end_time : R;
  (** the [src_id]s of [create_other_sources()], in order *)
  other_sources : list nat
}.
End SimOpts.

(** One row of the data frame of a simulation: an event, its sink and the
    mean rank [RU.rank_of_src_in_df(...).mean(axis=1)] at that event. *)
Module DfRow.
Record t : Type := mk {
  src_id : nat;
  sink_id : nat;
  time : R;
  time_delta : R;
  rank_in_tau : R
}.
End DfRow.

Class RedQueenState : Type := {
  State : Type;
  (** [state.apply_event(event)] *)
  apply_event : State -> option Event.t -> State;
  (** [np.mean(state.get_wall_rank(src_id, sink_ids, dict_form=False))] *)
  mean_wall_rank : State -> nat -> R
}.

(** A Python [dict] with natural keys, the latest binding first. *)
Module Dict.
Definition t (V : Type) : Type := list (nat * V).
Definition set {V : Type} (d : t V) (k : nat) (v : V) : t V := (k, v) :: d.
Fixpoint get {V : Type} (d : t V) (k : nat) : option V :=
  match d with
  | [] => None
  | (k', v) :: d' => if (k =? k')%nat then Some v else get d' k
  end.
End Dict.

(** ** [exp_broadcaster.ExpRecurrentTrainer] *)

Module ExpRecurrentTrainer.

Record t : Type := mk {
  src_embed_map : Dict.t nat;
  q : R;
  batch_size : nat;
  max_events : nat;
  num_hidden_states : nat;
  tf_Wm : Tensor.mat;
  tf_Wh : Tensor.mat;
  tf_Wt : Tensor.vec;
  tf_Wr : Tensor.vec;
  tf_Bh : Tensor.vec;
  tf_h : Tensor.vec;
  tf_bt : R;
  tf_vt : Tensor.vec;
  tf_wt : R;
  sim_opts : SimOpts.t
}.

(** [{x.src_id: idx + 1 for idx, x in enumerate(others)}] followed by
    [src_embed_map[sim_opts.src_id] = 0]. *)
Definition mk_src_embed_map (o : SimOpts.t) : Dict.t nat :=
  Dict.set
    (fold_left (fun d '(idx, x) => Dict.set d x (idx + 1)%nat)
       (combine (seq 0 (length (SimOpts.other_sources o))) (SimOpts.other_sources o))
       [])
    (SimOpts.src_id o) 0%nat.

Definition init (Wm Wh : Tensor.mat) (Wt Wr Bh vt : Tensor.vec) (wt bt : R)
    (init_h : Tensor.vec) (o : SimOpts.t) (batch_size max_events : nat) : t :=
  {| src_embed_map := mk_src_embed_map o;
     q := 10;
     batch_size := batch_size;
     max_events := max_events;
     num_hidden_states := length init_h;
     tf_Wm := Wm; tf_Wh := Wh; tf_Wt := Wt; tf_Wr := Wr; tf_Bh := Bh;
     tf_h := init_h;
     tf_bt := bt; tf_vt := vt; tf_wt := wt;
     sim_opts := o |}.

(** The pre-activation shared by [tf_h_next] and the training loop:
    embedding row [b_idx], previous state [h], rank and time delta. *)
Definition pre_activation (tr : t) (b_idx : nat) (h : Tensor.vec) (rank t_delta : R)
  : Tensor.vec :=
  Tensor.vadd (Tensor.vadd (Tensor.vadd (Tensor.vadd
    (Tensor.row (num_hidden_states tr) (tf_Wm tr) b_idx)
    (Tensor.matvec (tf_Wh tr) h))
    (Tensor.scale rank (tf_Wr tr)))
    (Tensor.scale t_delta (tf_Wt tr)))
    (tf_Bh tr).

(** [tf_h_next] fed with [b_idx], [t_delta], [h] and [rank]. *)
Definition tf_h_next (tr : t) (b_idx : nat) (t_delta : R) (h : Tensor.vec) (rank : R)
  : Tensor.vec :=
  map tanh (pre_activation tr b_idx h rank t_delta).

(** One row of the [feed_dict] of the training graph. *)
Record feed : Type := mk_feed {
  batch_b_idxes : list nat;
  batch_ranks : list R;
  batch_t_deltas : list R;
  batch_seq_len : nat;
  batch_last_interval : R
}.

(** [batch_u_theta(batch_t_deltas)] at the current [tf_batch_h_t]. *)
Definition batch_u_theta (tr : t) (tf_batch_h_t : Tensor.vec) (t_delta : R) : R :=
  exp (Tensor.dot tf_batch_h_t (tf_vt tr) + tf_wt tr * t_delta + tf_bt tr).

(** The values threaded through [for evt_idx in range(max_events)]. *)
Record loop : Type := mk_loop {
  tf_batch_h_t : Tensor.vec;
  h_states : list Tensor.vec;
  LL_log_terms : list R;
  LL_int_terms : list R;
  loss_terms : list R
}.

Definition loop_init (tr : t) : loop :=
  {| tf_batch_h_t := Tensor.zeros (num_hidden_states tr);
     h_states := []; LL_log_terms := []; LL_int_terms := []; loss_terms := [] |}.

(** The mask [evt_idx <= self.tf_batch_seq_len]. *)
Definition mask (evt_idx seq_len : nat) : bool := (evt_idx <=? seq_len)%nat.

Definition LL_log_term (tr : t) (f : feed) (evt_idx : nat) (u_theta : R) : R :=
  if mask evt_idx (batch_seq_len f) then
    if (nth evt_idx (batch_b_idxes f) 0 =? SimOpts.src_id (sim_opts tr))%nat
    then ln u_theta else 0
  else 0.

Definition LL_int_term (tr : t) (f : feed) (evt_idx : nat) (h : Tensor.vec) (u_theta : R) : R :=
  if mask evt_idx (batch_seq_len f) then
    - (1 / tf_wt tr) * (batch_u_theta tr h 0 - u_theta)
  else 0.

Definition loss_term (tr : t) (f : feed) (evt_idx : nat) (h : Tensor.vec) (u_theta : R) : R :=
  if mask evt_idx (batch_seq_len f) then
    - (1 / (2 * tf_wt tr)) * (Rsqr (batch_u_theta tr h 0) - Rsqr u_theta)
  else 0.

(** The body of the loop at [evt_idx]. *)
Definition body (tr : t) (f : feed) (st : loop) (evt_idx : nat) : loop :=
  let b := nth evt_idx (batch_b_idxes f) 0%nat in
  let r := nth evt_idx (batch_ranks f) 0 in
  let dt := nth evt_idx (batch_t_deltas f) 0 in
  let h :=
    if mask evt_idx (batch_seq_len f)
    then map tanh (pre_activation tr b (tf_batch_h_t st) r dt)
    else Tensor.zeros (num_hidden_states tr) in
  let u_theta :=
    if mask evt_idx (batch_seq_len f) then batch_u_theta tr h dt else 0 in
  {| tf_batch_h_t := h;
     h_states := h_states st ++ [h];
     LL_log_terms := LL_log_terms st ++ [LL_log_term tr f evt_idx u_theta];
     LL_int_terms := LL_int_terms st ++ [LL_int_term tr f evt_idx h u_theta];
     loss_terms := loss_terms st ++ [loss_term tr f evt_idx h u_theta] |}.

Definition unroll (tr : t) (f : feed) : loop :=
  fold_left (body tr f) (seq 0 (max_events tr)) (loop_init tr).

(** The survival terms added outside the loop. *)
Definition LL_last_term (tr : t) (f : feed) (h : Tensor.vec) : R :=
  (1 / tf_wt tr) * (batch_u_theta tr h 0 - batch_u_theta tr h (batch_last_interval f)).

Definition loss_last_term (tr : t) (f : feed) (h : Tensor.vec) : R :=
  - (1 / (2 * tf_wt tr)) *
    (Rsqr (batch_u_theta tr h 0) - Rsqr (batch_u_theta tr h (batch_last_interval f))).

(** [self.LL] for one row. *)
Definition LL (tr : t) (f : feed) : R :=
  let st := unroll tr f in
  (Tensor.sum (LL_log_terms st) + Tensor.sum (LL_log_terms st))
  + LL_last_term tr f (tf_batch_h_t st).

(** [self.loss] for one row. *)
Definition loss (tr : t) (f : feed) : R :=
  let st := unroll tr f in
  (Tensor.sum (loss_terms st) + loss_last_term tr f (tf_batch_h_t st)) * (q tr / 2).

(** [a[0:n] = v[0:n]] on a zero-filled row of length [max_events]. *)
Definition pad {A : Type} (zero : A) (n max_events : nat) (v : list A) : list A :=
  firstn n v ++ repeat zero (max_events - n).

Definition single_sink (df : list DfRow.t) : bool :=
  match df with
  | [] => false
  | e :: rest => forallb (fun e' => (DfRow.sink_id e' =? DfRow.sink_id e)%nat) rest
  end.

(** [df.src_id.map(self.src_embed_map)]; a source outside the map has no
    integer index (pandas yields NaN), which no data frame simulated from
    [sim_opts] contains: the row is then not modelled. *)
Fixpoint map_src (d : Dict.t nat) (df : list DfRow.t) : option (list nat) :=
  match df with
  | [] => Some []
  | e :: rest =>
      match Dict.get d (DfRow.src_id e), map_src d rest with
      | Some i, Some l => Some (i :: l)
      | _, _ => None
      end
  end.

(** The body of the loop of [get_feed_dict] for one data frame (the
    rewards, which the likelihood and the loss do not read, are left out). *)
Definition get_feed_row (tr : t) (df : list DfRow.t) : option (Py.result feed) :=
  match map_src (src_embed_map tr) df with
  | None => None
  | Some idxes =>
      let batch_len := Nat.min (length df) (max_events tr) in
      let row (last_interval : R) : feed :=
        {| batch_b_idxes := pad 0%nat batch_len (max_events tr) idxes;
           batch_ranks := pad 0 batch_len (max_events tr) (map DfRow.rank_in_tau df);
           batch_t_deltas := pad 0 batch_len (max_events tr) (map DfRow.time_delta df);
           batch_seq_len := batch_len;
           batch_last_interval := last_interval |} in
      if (batch_len =? length df)%nat then
        (* df.t.iloc[-1] *)
        match rev df with
        | [] => Some (Py.Raise Py.IndexError)
        | e :: _ => Some (Py.Ok (row (SimOpts.end_time (sim_opts tr) - DfRow.time e)))
        end
      else
        Some (Py.Ok (row (nth batch_len (map DfRow.time_delta df) 0)))
  end.

Fixpoint get_feed_rows (tr : t) (batch_df : list (list DfRow.t))
  : option (Py.result (list feed)) :=
  match batch_df with
  | [] => Some (Py.Ok [])
  | df :: rest =>
      match get_feed_row tr df with
      | None => None
      | Some (Py.Raise e) => Some (Py.Raise e)
      | Some (Py.Ok f) =>
          match get_feed_rows tr rest with
          | None => None
          | Some (Py.Raise e) => Some (Py.Raise e)
          | Some (Py.Ok fs) => Some (Py.Ok (f :: fs))
          end
      end
  end.

(** [get_feed_dict(batch_df)]: one [feed] per simulation. *)
Definition get_feed_dict (tr : t) (batch_df : list (list DfRow.t))
  : option (Py.result (list feed)) :=
  if negb (forallb single_sink batch_df) then Some (Py.Raise Py.AssertionError)
  else if negb (length batch_df =? batch_size tr)%nat then Some (Py.Raise Py.AssertionError)
  else get_feed_rows tr batch_df.

End ExpRecurrentTrainer.

(** ** [exp_broadcaster.ExpRecurrentBroadcaster] *)

Module ExpRecurrentBroadcaster.
Section ExpRecurrentBroadcaster.
Context {smp : ExpCDFSamplerSig} {env : RedQueenState}.

(** The attributes read or written by [get_next_interval]; [state] and
    [last_self_event_time] are maintained by the base class
    [OM.Broadcaster]. *)
Record t : Type := mk {
  src_id : nat;
  init : bool;
  trainer : ExpRecurrentTrainer.t;
  cur_h : Tensor.vec;
  exp_sampler : Sampler;
  state : State;
  last_self_event_time : R
}.

Definition update_hidden_state (b : t) (event_src_id : nat) (time_delta : R)
  : Py.result Tensor.vec :=
  let r_t := mean_wall_rank (state b) (src_id b) in
  match Dict.get (ExpRecurrentTrainer.src_embed_map (trainer b)) event_src_id with
  | None => Py.Raise Py.KeyError
  | Some b_idx =>
      Py.Ok (ExpRecurrentTrainer.tf_h_next (trainer b) b_idx time_delta (cur_h b) r_t)
  end.

(** The value [next_post_time - self.last_self_event_time] computed for an
    event once the hidden state [h] is known. *)
Definition next_delta (b : t) (event : Event.t) (h : Tensor.vec) : R :=
  fst (register_event (exp_sampler b) (Event.cur_time event) h
         (Event.src_id event =? src_id b)%nat)
  - last_self_event_time b.

(** The broadcaster after [self.init = True] and
    [self.state.apply_event(event)]. *)
Definition start (b : t) (event : option Event.t) : t :=
  {| src_id := src_id b; init := true; trainer := trainer b; cur_h := cur_h b;
     exp_sampler := exp_sampler b; state := apply_event (state b) event;
     last_self_event_time := last_self_event_time b |}.

(** [get_next_interval(event)]: the outcome and the broadcaster after the
    call. *)
Definition get_next_interval (b : t) (event : option Event.t) : Py.result R * t :=
  let b1 := start b event in
  match event with
  | None =>
      let '(sample, sm) := generate_sample (exp_sampler b1) in
      (Py.Ok sample,
       {| src_id := src_id b1; init := init b1; trainer := trainer b1;
          cur_h := cur_h b1; exp_sampler := sm; state := state b1;
          last_self_event_time := last_self_event_time b1 |})
  | Some e =>
      match update_hidden_state b1 (Event.src_id e) (Event.time_delta e) with
      | Py.Raise ex => (Py.Raise ex, b1)
      | Py.Ok h =>
          let '(next_post_time, sm) :=
            register_event (exp_sampler b1) (Event.cur_time e) h
              (Event.src_id e =? src_id b1)%nat in
          let b2 :=
            {| src_id := src_id b1; init := init b1; trainer := trainer b1;
               cur_h := h; exp_sampler := sm; state := state b1;
               last_self_event_time := last_self_event_time b1 |} in
          let next_delta := next_post_time - last_self_event_time b2 in
          if Py.leb 0 next_delta then (Py.Ok next_delta, b2)
          else (Py.Raise Py.AssertionError, b2)
      end
  end.

End ExpRecurrentBroadcaster.
End ExpRecurrentBroadcaster.

(** ** [exp_broadcaster.ExpPredTrainer] and [ExpPredBroadcaster] *)

Module ExpPredTrainer.

(** The attributes set by [__init__] before the graph is built. *)
Record t : Type := mk {
  src_embed_map : Dict.t nat;
  batch_size : nat;
  max_events : nat;
  num_hidden_states : nat;
  sim_opts : SimOpts.t
}.

(** [_update_hidden_state(src_id, time_delta, r_t)]: the feed dictionary
    reads [self.trainer], which no [ExpPredTrainer] has. *)
Definition _update_hidden_state (tr : t) (src_id : nat) (time_delta r_t : R)
  : Py.result Tensor.vec :=
  Py.Raise Py.AttributeError.

End ExpPredTrainer.

Module ExpPredBroadcaster.
Section ExpPredBroadcaster.
Context {smp : ExpCDFSamplerSig} {env : RedQueenState}.

Record t : Type := mk {
  src_id : nat;
  init : bool;
  trainer : ExpPredTrainer.t;
  cur_h : Tensor.vec;
  exp_sampler : Sampler;
  state : State;
  last_self_event_time : R
}.

Definition update_hidden_state (b : t) (event_src_id : nat) (time_delta : R)
  : Py.result Tensor.vec :=
  let r_t := mean_wall_rank (state b) (src_id b) in
  ExpPredTrainer._update_hidden_state (trainer b) event_src_id time_delta r_t.

Definition next_delta (b : t) (event : Event.t) (h : Tensor.vec) : R :=
  fst (register_event (exp_sampler b) (Event.cur_time event) h
         (Event.src_id event =? src_id b)%nat)
  - last_self_event_time b.

(** The broadcaster after [self.init = True] and
    [self.state.apply_event(event)]. *)
Definition start (b : t) (event : option Event.t) : t :=
  {| src_id := src_id b; init := true; trainer := trainer b; cur_h := cur_h b;
     exp_sampler := exp_sampler b; state := apply_event (state b) event;
     last_self_event_time := last_self_event_time b |}.

(** [get_next_interval(event)]: the outcome and the broadcaster after the
    call. *)
Definition get_next_interval (b : t) (event : option Event.t) : Py.result R * t :=
  let b1 := start b event in
  match event with
  | None =>
      let '(sample, sm) := generate_sample (exp_sampler b1) in
      (Py.Ok sample,
       {| src_id := src_id b1; init := init b1; trainer := trainer b1;
          cur_h := cur_h b1; exp_sampler := sm; state := state b1;
          last_self_event_time := last_self_event_time b1 |})
  | Some e =>
      match update_hidden_state b1 (Event.src_id e) (Event.time_delta e) with
      | Py.Raise ex => (Py.Raise ex, b1)
      | Py.Ok h =>
          let '(next_post_time, sm) :=
            register_event (exp_sampler b1) (Event.cur_time e) h
              (Event.src_id e =? src_id b1)%nat in
          let b2 :=
            {| src_id := src_id b1; init := init b1; trainer := trainer b1;
               cur_h := h; exp_sampler := sm; state := state b1;
               last_self_event_time := last_self_event_time b1 |} in
          let next_delta := next_post_time - last_self_event_time b2 in
          if Py.leb 0 next_delta then (Py.Ok next_delta, b2)
          else (Py.Raise Py.AssertionError, b2)
      end
  end.

End ExpPredBroadcaster.
End ExpPredBroadcaster.

(** The policy-gradient combination of [ExpRecurrentTrainer]
    ([tower_gradients] and [average_gradients]); the gradient of one row
    with respect to one variable is given flattened. *)
Module TowerGradients.

(** The gradient of tower [idx] for one variable. *)
Definition tower_gradient (reward loss : R) (LL_grad loss_grad : Tensor.vec) : Tensor.vec :=
  Tensor.vadd (Tensor.scale (reward + loss) LL_grad) loss_grad.

Definition tower_gradients (batch_rewards losses : list R)
    (LL_grads loss_grads : list Tensor.vec) : list Tensor.vec :=
  map (fun '((r, l), (g, lg)) => tower_gradient r l g lg)
    (combine (combine batch_rewards losses) (combine LL_grads loss_grads)).

(** [average_gradients] for one variable whose gradient has [k] entries. *)
Definition average_gradients (k : nat) (towers : list Tensor.vec) : Tensor.vec :=
  Tensor.reduce_mean0_1 k towers.

Definition avg_gradient (k : nat) (batch_rewards losses : list R)
    (LL_grads loss_grads : list Tensor.vec) : Tensor.vec :=
  average_gradients k (tower_gradients batch_rewards losses LL_grads loss_grads).

End TowerGradients.

(** ** TensorFlow operations used by [ExpRecurrentTeacher] *)

Module TF.

(** [tf.pow(x, y)] for [x >= 0]; [0 ** y] with [y < 0] is infinite and has
    no value in this model. *)
Definition pow (x y : R) : R :=
  if Req_dec_T y 0 then 1
  else if Req_dec_T x 0 then 0
  else Rpower x y.

(** [tf.global_norm(t_list)], each tensor given flattened:
    [sqrt(sum([l2norm(t)**2 for t in t_list]))]. *)
Definition l2norm (t : Tensor.vec) : R := sqrt (Tensor.sum (map Rsqr t)).

Definition global_norm (t_list : list Tensor.vec) : R :=
  sqrt (Tensor.sum (map (fun t => Rsqr (l2norm t)) t_list)).

(** [tf.clip_by_global_norm(t_list, clip_norm)], as documented:
    [t_list[i] * clip_norm / max(global_norm, clip_norm)] together with
    [global_norm]. *)
Definition clip_by_global_norm (t_list : list Tensor.vec) (clip_norm : R)
  : list Tensor.vec * R :=
  let g := global_norm t_list in
  (map (map (fun x => x * clip_norm / Rmax g clip_norm)) t_list, g).

(** [tf.train.get_checkpoint_state]'s result. *)
Record CheckpointState : Type := mk_CheckpointState {
  model_checkpoint_path : string;
  all_model_checkpoint_paths : list string
}.

End TF.

(** [str.endswith] and [str.format] of an integer. *)
Module Str.

Definition endswith (x suffix : string) : bool :=
  let n := String.length x in
  let m := String.length suffix in
  (m <=? n)%nat && String.eqb (substring (n - m) m x) suffix.

Definition of_int (z : Z) : string := NilZero.string_of_int (Z.to_int z).

End Str.

(** ** [exp_teacher.ExpRecurrentTeacher] *)

Module ExpRecurrentTeacher.

Record t : Type := mk {
  q : R;
  clip_norm : R;
  with_advantage : bool;
  decay_q_rate : R;
  global_step : nat;
  batch_size : nat;
  save_dir : string;
  (** the checkpoint file the session was last restored from *)
  sess_restored : option string
}.

(** The outputs of [tf.nn.dynamic_rnn] over the stacked cell and of the
    cell's [last_LL] and [last_loss], for one row of the batch. *)
Record outputs : Type := mk_outputs {
  LL_log_terms_stack : list R;
  LL_int_terms_stack : list R;
  loss_terms_stack : list R;
  LL_last_term_stack : R;
  loss_last_term_stack : R
}.

Definition LL_stack (o : outputs) : R :=
  (Tensor.sum (LL_log_terms_stack o) - Tensor.sum (LL_int_terms_stack o))
  + LL_last_term_stack o.

Definition loss_stack (te : t) (o : outputs) : R :=
  (q te / 2) * (Tensor.sum (loss_terms_stack o) + loss_last_term_stack o)
  * TF.pow (INR (global_step te)) (decay_q_rate te).

(** [calc_u_is_own_event], for one row. *)
Definition calc_u_is_own_event (batch_b_idxes : list nat) : list bool :=
  map (fun b => (b =? 0)%nat) batch_b_idxes.

(** [avg_reward], the baseline. *)
Definition avg_reward (te : t) (batch_rewards loss_stack : list R) : R :=
  if with_advantage te
  then Tensor.mean batch_rewards + Tensor.mean loss_stack
  else 0.

Definition coef (te : t) (batch_rewards loss_stack : list R) : list R :=
  map (fun x => x - avg_reward te batch_rewards loss_stack)
    (Tensor.vadd batch_rewards loss_stack).

(** The gradients of [LL_stack] and [loss_stack] with respect to one stacked
    variable: tensors of the variable's shape, of dimension 1, 2 or 3
    counting the batch axis. *)
Inductive grads : Type :=
| Grads1 (LL_grad loss_grad : list R)
| Grads2 (LL_grad loss_grad : list (list R))
| Grads3 (LL_grad loss_grad : list (list (list R))).

(** One entry of [avg_gradient_stack]. *)
Inductive avg : Type :=
| Avg0 (g : R)
| Avg1 (g : list R)
| Avg2 (g : list (list R)).

(** [x + loss_grad], where [loss_grad] is the number [0] for [Vy]. *)
Definition add_loss1 (is_Vy : bool) (x loss_grad : list R) : list R :=
  if is_Vy then map (fun a => a + 0) x else Tensor.vadd x loss_grad.

Definition add_loss2 (is_Vy : bool) (x loss_grad : list (list R)) : list (list R) :=
  if is_Vy then map (map (fun a => a + 0)) x else Tensor.madd x loss_grad.

Definition add_loss3 (is_Vy : bool) (x loss_grad : list (list (list R)))
  : list (list (list R)) :=
  if is_Vy then map (map (map (fun a => a + 0))) x
  else Tensor.zip_with Tensor.madd x loss_grad.

(** [tf.tile(tf.reshape(coef, (-1, 1)), [1, k])] and its three-dimensional
    form. *)
Definition tile2 (coef : list R) (k : nat) : list (list R) :=
  map (fun c => repeat c k) coef.

Definition tile3 (coef : list R) (k1 k2 : nat) : list (list (list R)) :=
  map (fun c => repeat (repeat c k2) k1) coef.

(** The body of [for x, y in zip(self.all_mini_vars, self.all_tf_vars)]. *)
Definition avg_gradient (coef : list R) (is_Vy : bool) (g : grads) : avg :=
  match g with
  | Grads1 LL_grad loss_grad =>
      Avg0 (Tensor.mean (add_loss1 is_Vy (Tensor.vmul LL_grad coef) loss_grad))
  | Grads2 LL_grad loss_grad =>
      let k := length (hd [] LL_grad) in
      Avg1 (Tensor.reduce_mean0_1 k
              (add_loss2 is_Vy (Tensor.mmul LL_grad (tile2 coef k)) loss_grad))
  | Grads3 LL_grad loss_grad =>
      let k1 := length (hd [] LL_grad) in
      let k2 := length (hd [] (hd [] LL_grad)) in
      Avg2 (Tensor.reduce_mean0_2 k1 k2
              (add_loss3 is_Vy
                 (Tensor.zip_with Tensor.mmul LL_grad (tile3 coef k1 k2)) loss_grad))
  end.

(** [avg_gradient_stack]: one entry per variable, with the variable's name. *)
Definition avg_gradient_stack (te : t) (batch_rewards loss_stack : list R)
    (vars : list (string * bool * grads)) : list (avg * string) :=
  map (fun '(y, is_Vy, g) =>
         (avg_gradient (coef te batch_rewards loss_stack) is_Vy g, y)) vars.

Definition flatten (a : avg) : Tensor.vec :=
  match a with
  | Avg0 g => [g]
  | Avg1 g => g
  | Avg2 g => concat g
  end.

(** [clipped_avg_gradient_stack] (the gradients flattened) and
    [grad_norm_stack]. *)
Definition clipped_avg_gradient_stack (te : t) (avg_gradient_stack : list (avg * string))
  : list (Tensor.vec * string) * R :=
  let '(clipped, grad_norm) :=
    TF.clip_by_global_norm (map (fun gv => flatten (fst gv)) avg_gradient_stack)
      (clip_norm te) in
  (combine clipped (map snd avg_gradient_stack), grad_norm).

Definition set_restored (te : t) (file : string) : t :=
  {| q := q te; clip_norm := clip_norm te; with_advantage := with_advantage te;
     decay_q_rate := decay_q_rate te; global_step := global_step te;
     batch_size := batch_size te; save_dir := save_dir te;
     sess_restored := Some file |}.

(** [restore(restore_dir, epoch_to_recover)]; [get_checkpoint_state] is
    [tf.train.get_checkpoint_state] on the file system, [None] where the
    directory holds no checkpoint state, and [saver.restore(sess, file)]
    records the file in the session. *)
Definition restore (get_checkpoint_state : string -> option TF.CheckpointState)
    (te : t) (restore_dir : option string) (epoch_to_recover : option Z)
  : Py.result t :=
  let restore_dir :=
    match restore_dir with
    | None => save_dir te
    | Some d => d
    end in
  let chkpt := get_checkpoint_state restore_dir in
  match epoch_to_recover with
  | Some epoch =>
      let suffix := ("-" ++ Str.of_int epoch)%string in
      match chkpt with
      | None => Py.Raise Py.AttributeError
      | Some c =>
          let file :=
            filter (fun x => Str.endswith x suffix) (TF.all_model_checkpoint_paths c) in
          match file with
          | [] =>
              Py.Raise (Py.FileNotFoundError
                          ("Epoch " ++ Str.of_int epoch ++ " not found.")%string)
          | file_0 :: _ => Py.Ok (set_restored te file_0)
          end
      end
  | None =>
      match chkpt with
      | None => Py.Raise Py.AttributeError
      | Some c => Py.Ok (set_restored te (TF.model_checkpoint_path c))
      end
  end.

End ExpRecurrentTeacher.

(** ** Shapes and index notation used in the statements *)

Module Shape.
(** Every slice of [x] along axis 0 has [k] entries. *)
Definition rows (k : nat) (x : list (list R)) : Prop :=
  Forall (fun r => length r = k) x.

Definition slices (k1 k2 : nat) (x : list (list (list R))) : Prop :=
  Forall (fun m => length m = k1 /\ rows k2 m) x.

(** The two gradients of a variable have the shape of the variable, with
    [b] slices along the batch axis. *)
Definition well_shaped (b : nat) (g : ExpRecurrentTeacher.grads) : Prop :=
  match g with
  | ExpRecurrentTeacher.Grads1 LL_grad loss_grad =>
      length LL_grad = b /\ length loss_grad = b
  | ExpRecurrentTeacher.Grads2 LL_grad loss_grad =>
      let k := length (hd [] LL_grad) in
      length LL_grad = b /\ length loss_grad = b /\
      rows k LL_grad /\ rows k loss_grad
  | ExpRecurrentTeacher.Grads3 LL_grad loss_grad =>
      let k1 := length (hd [] LL_grad) in
      let k2 := length (hd [] (hd [] LL_grad)) in
      length LL_grad = b /\ length loss_grad = b /\
      slices k1 k2 LL_grad /\ slices k1 k2 loss_grad
  end.

(** The gradient of the loss with respect to the variable vanishes. *)
Definition loss_grad_zero (g : ExpRecurrentTeacher.grads) : Prop :=
  match g with
  | ExpRecurrentTeacher.Grads1 _ loss_grad => Forall (fun x => x = 0) loss_grad
  | ExpRecurrentTeacher.Grads2 _ loss_grad =>
      Forall (Forall (fun x => x = 0)) loss_grad
  | ExpRecurrentTeacher.Grads3 _ loss_grad =>
      Forall (Forall (Forall (fun x => x = 0))) loss_grad
  end.

(** [mean_i (c_i * dLL_i + dL_i)] over the batch indices [0 .. b-1]. *)
Definition batch_mean (b : nat) (c dLL dL : nat -> R) : R :=
  Tensor.mean (map (fun i => c i * dLL i + dL i) (seq 0 b)).

(** The [time_delta] of every row is the time elapsed since the row before
    it, the first one counting from [t0]. *)
Fixpoint consecutive (t0 : R) (df : list DfRow.t) : Prop :=
  match df with
  | [] => True
  | e :: rest => DfRow.time_delta e = DfRow.time e - t0 /\ consecutive (DfRow.time e) rest
  end.
End Shape.

(** ** Concrete collaborators used to run the models on examples *)

Module Fixtures.

(** A generator whose every draw is [0] and whose every choice is item [0]. *)
Definition zero_random : NumpyRandom := {|
  RandomState := unit;
  RandomState_seed := fun _ => tt;
  rand := fun rs => (0, rs);
  choice := fun rs _ _ => (0%nat, rs)
|}.

(** A sampler that replays a script of absolute event times:
    [generate_sample] consumes the head of the script, [register_event]
    announces it without consuming it; [c] is constant and a script at its
    end answers [0]. *)
Definition scripted_sampler (script : list R) : ExpCDFSamplerSig := {|
  Sampler := list R;
  ExpCDFSampler := fun _ _ _ _ _ _ => script;
  sampler_c := fun _ => 0;
  generate_sample := fun s => (hd 0 s, tl s);
  register_event := fun s _ _ _ => (hd 0 s, s)
|}.

(** A world state without content: every mean rank is [0]. *)
Definition empty_state : RedQueenState := {|
  State := unit;
  apply_event := fun st _ => st;
  mean_wall_rank := fun _ _ => 0
|}.

Definition opts (src_id : nat) (others : list nat) : SimOpts.t :=
  {| SimOpts.src_id := src_id; SimOpts.end_time := 2; SimOpts.other_sources := others |}.

(** A trainer with one hidden state and room for two sources; every weight
    is [0] except the decay rate [wt = -1] and the bias [bt], so that
    [u(t) = exp(bt - t)] after every event. *)
Definition trainer (src_id : nat) (others : list nat) (max_events : nat) (bt : R)
  : ExpRecurrentTrainer.t :=
  ExpRecurrentTrainer.init [[0]; [0]] [[0]] [0] [0] [0] [0] (-1) bt [0]
    (opts src_id others) 1 max_events.

End Fixtures.

(** * Properties *)

(** ** Lists and sums *)

Lemma getitem_Ok {A : Type} (l : list A) (i : nat) (a : A) :
  Py.getitem l i = Py.Ok a <-> nth_error l i = Some a.
Proof.
  unfold Py.getitem. destruct (nth_error l i); split; intros E;
    inversion E; reflexivity.
Qed.

Lemma update_length {A : Type} (l : list A) (i : nat) (v : A) :
  length (Py.update l i v) = length l.
Proof.
  revert i. induction l as [|a l IH]; intros [|i]; simpl; auto.
Qed.

Lemma update_same {A : Type} (l : list A) (i : nat) (v : A) :
  (i < length l)%nat -> nth_error (Py.update l i v) i = Some v.
Proof.
  revert i. induction l as [|a l IH]; intros [|i] Hi; simpl in *; try lia.
  - reflexivity.
  - apply IH. lia.
Qed.

Lemma update_update {A : Type} (l : list A) (i : nat) (v w : A) :
  Py.update (Py.update l i v) i w = Py.update l i w.
Proof.
  revert i. induction l as [|a l IH]; intros [|i]; simpl; auto.
  now rewrite IH.
Qed.

Lemma update_Forall {A : Type} (P : A -> Prop) (l : list A) (i : nat) (v : A) :
  Forall P l -> P v -> Forall P (Py.update l i v).
Proof.
  intros Hl Hv. revert i.
  induction Hl as [|a l Ha Hl IH]; intros [|i]; simpl; auto.
Qed.

Lemma setitem_Ok {A : Type} (l l' : list A) (i : nat) (v : A) :
  Py.setitem l i v = Py.Ok l' <-> (i < length l)%nat /\ l' = Py.update l i v.
Proof.
  unfold Py.setitem. destruct (Nat.ltb_spec i (length l)); split.
  - intros E. inversion E. auto.
  - intros [_ ->]. reflexivity.
  - discriminate.
  - intros [Hi _]. lia.
Qed.

Lemma sum_app (l1 l2 : list R) :
  Tensor.sum (l1 ++ l2) = Tensor.sum l1 + Tensor.sum l2.
Proof.
  unfold Tensor.sum. induction l1 as [|a l1 IH]; simpl; [lra|].
  rewrite IH. lra.
Qed.

Lemma ltb_true (a b : R) : a < b -> Py.ltb a b = true.
Proof. intros Hab. unfold Py.ltb. destruct (Rlt_dec a b); [reflexivity | contradiction]. Qed.

Lemma ltb_false (a b : R) : b <= a -> Py.ltb a b = false.
Proof. intros Hab. unfold Py.ltb. destruct (Rlt_dec a b); [lra | reflexivity]. Qed.

Lemma last_cons {A : Type} (a d : A) (l : list A) : last (a :: l) d = last l a.
Proof.
  revert a d. induction l as [|b l IH]; intros a d; [reflexivity|].
  change (last (a :: b :: l) d) with (last (b :: l) d).
  now rewrite !IH.
Qed.

Lemma sum_repeat_0 (n : nat) : Tensor.sum (repeat 0 n) = 0.
Proof. unfold Tensor.sum. induction n; simpl; lra. Qed.

Lemma Forall_nth_lt {A : Type} (P : A -> Prop) (l : list A) (i : nat) (d : A) :
  Forall P l -> (i < length l)%nat -> P (nth i l d).
Proof.
  intros Hl Hi. rewrite Forall_forall in Hl. apply Hl. now apply nth_In.
Qed.

Section ZipFacts.
Context {A : Type}.

Lemma zip_with_length (f : A -> A -> A) (u v : list A) :
  length (Tensor.zip_with f u v) = Nat.min (length u) (length v).
Proof.
  revert v. induction u as [|x u IH]; intros [|y v]; simpl; auto.
Qed.

Lemma zip_with_nth (f : A -> A -> A) (u v : list A) (k : nat) (d du dv : A) :
  (k < length u)%nat -> (k < length v)%nat ->
  nth k (Tensor.zip_with f u v) d = f (nth k u du) (nth k v dv).
Proof.
  revert v k. induction u as [|x u IH]; intros [|y v] [|k]; simpl; intros; try lia.
  - reflexivity.
  - apply IH; lia.
Qed.

(** Adding up slices entry by entry: entry [k] of the total is the total of
    the entries [k]. *)
Lemma fold_zip_with_nth (f : A -> A -> A) (z d : A) (n k : nat) (x : list (list A)) :
  (k < n)%nat ->
  Forall (fun r => (k < length r)%nat) x ->
  (k < length (fold_right (Tensor.zip_with f) (repeat z n) x))%nat /\
  nth k (fold_right (Tensor.zip_with f) (repeat z n) x) d
  = fold_right f z (map (fun r => nth k r d) x).
Proof.
  intros Hk Hx. induction Hx as [|r x Hr Hx IH]; simpl.
  - rewrite repeat_length. split; [exact Hk|]. apply nth_repeat_lt. exact Hk.
  - destruct IH as [Hlen IH]. split.
    + rewrite zip_with_length. lia.
    + rewrite (zip_with_nth f r _ k d d d) by assumption. now rewrite IH.
Qed.

Lemma zip_with_seq (f : A -> A -> A) (u v : list A) (n : nat) (d : A) :
  length u = n -> length v = n ->
  Tensor.zip_with f u v = map (fun i => f (nth i u d) (nth i v d)) (seq 0 n).
Proof.
  intros Hu Hv.
  apply (nth_ext _ _ d ((fun i => f (nth i u d) (nth i v d)) 0%nat)).
  - rewrite zip_with_length, length_map, length_seq. lia.
  - intros k Hk. rewrite zip_with_length in Hk.
    rewrite (zip_with_nth f u v k d d d) by lia.
    rewrite (map_nth (fun i => f (nth i u d) (nth i v d))).
    rewrite seq_nth by lia. reflexivity.
Qed.

End ZipFacts.

Lemma map_nth_lt {A B : Type} (f : A -> B) (l : list A) (i : nat) (d : A) (d' : B) :
  (i < length l)%nat -> nth i (map f l) d' = f (nth i l d).
Proof.
  intros Hi. rewrite (nth_indep _ d' (f d)) by (now rewrite length_map).
  apply map_nth.
Qed.

Lemma list_as_seq_map {A : Type} (l : list A) (d : A) :
  l = map (fun i => nth i l d) (seq 0 (length l)).
Proof.
  apply (nth_ext _ _ d ((fun i => nth i l d) 0%nat)).
  - now rewrite length_map, length_seq.
  - intros k Hk. rewrite (map_nth (fun i => nth i l d)). now rewrite seq_nth.
Qed.

Lemma sum_map_seq {A : Type} (g : A -> R) (l : list A) (d : A) :
  Tensor.sum (map g l) = Tensor.sum (map (fun i => g (nth i l d)) (seq 0 (length l))).
Proof.
  rewrite (list_as_seq_map l d) at 1. now rewrite map_map.
Qed.

Lemma mean_map_seq (g : nat -> R) (b : nat) :
  Tensor.mean (map g (seq 0 b)) = Tensor.sum (map g (seq 0 b)) / INR b.
Proof. unfold Tensor.mean. now rewrite length_map, length_seq. Qed.

(** Entry [j] of [reduce_mean(x, axis=0)] is the mean over the slices of
    their entries [j]. *)
Lemma reduce_mean0_1_nth (k j : nat) (x : list Tensor.vec) :
  (j < k)%nat ->
  Forall (fun r => (j < length r)%nat) x ->
  nth j (Tensor.reduce_mean0_1 k x) 0
  = Tensor.sum (map (fun i => nth j (nth i x []) 0) (seq 0 (length x)))
    / INR (length x).
Proof.
  intros Hj Hx. unfold Tensor.reduce_mean0_1, Tensor.vadd, Tensor.zeros in *.
  destruct (fold_zip_with_nth Rplus 0 0 k j x Hj Hx) as [Hlen Hn].
  rewrite (map_nth_lt _ _ j 0) by exact Hlen.
  rewrite Hn. f_equal. apply (sum_map_seq (fun r => nth j r 0) x []).
Qed.

Lemma reduce_mean0_2_nth (k1 k2 j1 j2 : nat) (x : list Tensor.mat) :
  (j1 < k1)%nat -> (j2 < k2)%nat ->
  Forall (fun m => (j1 < length m)%nat /\ (j2 < length (nth j1 m []))%nat) x ->
  nth j2 (nth j1 (Tensor.reduce_mean0_2 k1 k2 x) []) 0
  = Tensor.sum (map (fun i => nth j2 (nth j1 (nth i x []) []) 0) (seq 0 (length x)))
    / INR (length x).
Proof.
  intros Hj1 Hj2 Hx. unfold Tensor.reduce_mean0_2, Tensor.madd in *.
  assert (Hx1 : Forall (fun m : list (list R) => (j1 < length m)%nat) x).
  { eapply Forall_impl; [|exact Hx]. simpl. tauto. }
  destruct (fold_zip_with_nth Tensor.vadd (Tensor.zeros k2) [] k1 j1 x Hj1 Hx1)
    as [Hlen Hn].
  unfold Tensor.vadd, Tensor.zeros in *.
  rewrite (map_nth_lt _ _ j1 []) by exact Hlen.
  rewrite Hn.
  assert (Hx2 : Forall (fun r : list R => (j2 < length r)%nat)
                  (map (fun m : list (list R) => nth j1 m []) x)).
  { apply Forall_map. eapply Forall_impl; [|exact Hx]. simpl. tauto. }
  destruct (fold_zip_with_nth Rplus 0 0 k2 j2 _ Hj2 Hx2) as [Hlen2 Hn2].
  rewrite (map_nth_lt _ _ j2 0) by exact Hlen2.
  rewrite Hn2. f_equal.
  rewrite map_map. apply (sum_map_seq (fun m => nth j2 (nth j1 m []) 0) x []).
Qed.

(** ** [Student]: the decay rates stay clamped *)

Section StudentFacts.
Context {rng : NumpyRandom}.

Lemma clamp_rate_ok (n : R) : Student.rate_ok (Py.min (Py.max 1e-6 n) 1e2).
Proof.
  unfold Student.rate_ok, Py.min, Py.max.
  destruct (Rlt_dec 1e-6 n); destruct (Rlt_dec 1e2 _); lra.
Qed.

Lemma recall_Ok (s s' : Student.t) (item : nat) (time : R) (r : bool) :
  Student.recall s item time = Py.Ok (r, s') ->
  Student.ns s' = Student.ns s /\
  Student.alphas s' = Student.alphas s /\
  Student.betas s' = Student.betas s /\
  Student.last_review_times s' = Student.last_review_times s.
Proof.
  unfold Student.recall.
  destruct (Py.getitem (Student.ns s) item); simpl; [|discriminate].
  destruct (Py.getitem (Student.last_review_times s) item); simpl; [|discriminate].
  destruct (rand (Student.RS s)). intros E. inversion E. simpl. auto.
Qed.

Lemma set_ns_Ok (s s' : Student.t) (item : nat) (v : R) :
  Student.set_ns s item v = Py.Ok s' ->
  (item < length (Student.ns s))%nat /\
  Student.ns s' = Py.update (Student.ns s) item v.
Proof.
  unfold Student.set_ns.
  destruct (Py.setitem (Student.ns s) item v) as [l|] eqn:E; simpl; [|discriminate].
  intros E'. inversion E'. simpl. apply setitem_Ok in E. tauto.
Qed.

(** What a successful [review] leaves in [ns]: only the reviewed entry
    changes, to a clamped value. *)
Lemma review_ns (s s' : Student.t) (item : nat) (cur_time : R) (r : bool) :
  Student.review s item cur_time = Py.Ok (r, s') ->
  (item < length (Student.ns s))%nat /\
  exists n : R,
    Student.ns s' = Py.update (Student.ns s) item (Py.min (Py.max 1e-6 n) 1e2).
Proof.
  unfold Student.review.
  destruct (Student.recall s item cur_time) as [[r0 s0]|] eqn:Er; simpl; [|discriminate].
  apply recall_Ok in Er. destruct Er as (Ens & _).
  match goal with
  | |- context [Py.bind ?m _] => destruct m as [s1|] eqn:E1; simpl; [|discriminate]
  end.
  assert (H1 : (item < length (Student.ns s0))%nat /\
               exists v, Student.ns s1 = Py.update (Student.ns s0) item v).
  { destruct r0;
      destruct (Py.getitem (Student.ns s0) item); simpl in E1; try discriminate;
      match type of E1 with
      | Py.bind ?m _ = _ => destruct m; simpl in E1; try discriminate
      end;
      apply set_ns_Ok in E1; destruct E1 as [Hi E1]; split; auto; eexists; exact E1. }
  destruct H1 as [Hi [v Ev]].
  destruct (Py.getitem (Student.ns s1) item) as [n|]; simpl; [|discriminate].
  destruct (Student.set_ns s1 item _) as [s2|] eqn:E2; simpl; [|discriminate].
  apply set_ns_Ok in E2. destruct E2 as [_ E2].
  destruct (Py.setitem (Student.last_review_times s2) item cur_time); simpl; [|discriminate].
  intros E. inversion E; subst. simpl.
  split; [congruence|].
  exists n. rewrite E2, Ev, update_update. congruence.
Qed.

Lemma review_invariant (s s' : Student.t) (item : nat) (cur_time : R) (r : bool) :
  Forall Student.rate_ok (Student.ns s) ->
  Student.review s item cur_time = Py.Ok (r, s') ->
  Forall Student.rate_ok (Student.ns s').
Proof.
  intros Hs E. apply review_ns in E. destruct E as [_ [n ->]].
  apply update_Forall; [assumption | apply clamp_rate_ok].
Qed.

Lemma reviews_invariant (calls : list (nat * R)) (s s' : Student.t) :
  Forall Student.rate_ok (Student.ns s) ->
  Student.reviews s calls = Py.Ok s' ->
  Forall Student.rate_ok (Student.ns s').
Proof.
  revert s. induction calls as [|[item cur_time] rest IH]; intros s Hs; simpl.
  - intros E. inversion E. subst. assumption.
  - destruct (Student.review s item cur_time) as [[r s1]|] eqn:E1; simpl; [|discriminate].
    apply IH. eapply review_invariant; eassumption.
Qed.

(** [review] returns whenever the item is one of the student's items. *)
Lemma review_returns (s : Student.t) (item : nat) (cur_time : R) :
  (item < length (Student.ns s))%nat ->
  length (Student.alphas s) = length (Student.ns s) ->
  length (Student.betas s) = length (Student.ns s) ->
  length (Student.last_review_times s) = length (Student.ns s) ->
  exists r s', Student.review s item cur_time = Py.Ok (r, s').
Proof.
  intros Hi Ha Hb Hl.
  destruct (nth_error (Student.ns s) item) as [n|] eqn:En;
    [|apply nth_error_None in En; lia].
  destruct (nth_error (Student.alphas s) item) as [a|] eqn:Ea;
    [|apply nth_error_None in Ea; lia].
  destruct (nth_error (Student.betas s) item) as [b|] eqn:Eb;
    [|apply nth_error_None in Eb; lia].
  destruct (nth_error (Student.last_review_times s) item) as [l|] eqn:El;
    [|apply nth_error_None in El; lia].
  unfold Student.review, Student.recall, Student.set_ns, Py.getitem, Py.setitem.
  rewrite En, El. simpl. destruct (rand (Student.RS s)) as [u rs]. simpl.
  destruct (Py.ltb u _); simpl; rewrite En; simpl;
    [rewrite Ea | rewrite Eb]; simpl;
    (destruct (Nat.ltb_spec item (length (Student.ns s))); [|lia]); simpl;
    rewrite update_same by lia; simpl;
    rewrite update_length;
    (destruct (Nat.ltb_spec item (length (Student.ns s))); [|lia]); simpl;
    (destruct (Nat.ltb_spec item (length (Student.last_review_times s))); [|lia]); simpl;
    eauto.
Qed.

End StudentFacts.

(** C10. After a call of [Student.review] that returns, the rate
    [ns[item]] of the reviewed item lies in [[1e-6, 1e2]]; and when the
    initial rates [n_0s] lie in that interval (the scenario starts every
    item at [1]), the rates of all items lie in it after any sequence of
    reviews. *)
Theorem review_keeps_rates_in_range {rng : NumpyRandom} :
  (forall (s s' : Student.t) (item : nat) (cur_time : R) (r : bool),
      Student.review s item cur_time = Py.Ok (r, s') ->
      exists n : R,
        nth_error (Student.ns s') item = Some n /\ Student.rate_ok n)
  /\
  (forall (n_0s alphas betas : list R) (seed : Z)
          (calls : list (nat * R)) (s' : Student.t),
      Forall Student.rate_ok n_0s ->
      Student.reviews (Student.init n_0s alphas betas seed) calls = Py.Ok s' ->
      Forall Student.rate_ok (Student.ns s'))
  /\
  (forall alphas : list R,
      Forall Student.rate_ok (map (fun _ => 1) alphas)).
Proof.
  split; [|split].
  - intros s s' item cur_time r E.
    apply review_ns in E. destruct E as [Hi [n ->]].
    eexists. split.
    + apply update_same. exact Hi.
    + apply clamp_rate_ok.
  - intros n_0s alphas betas seed calls s' H0 E.
    eapply reviews_invariant; [|exact E]. exact H0.
  - intros alphas. induction alphas; simpl; constructor; auto.
    unfold Student.rate_ok. lra.
Qed.

Lemma review_keeps_rates_in_range_witness :
  let s1 : Student.t :=
    Student.mk (rng := Fixtures.zero_random)
      [Py.min (Py.max 1e-6 (1 * (1 - 0.5))) 1e2] [0.5] [0.25] 42 [3] tt in
  (exists n : R, nth_error (Student.ns s1) 0 = Some n /\ Student.rate_ok n)
  /\ Forall Student.rate_ok (Student.ns s1).
Proof.
  assert (E : Student.review (rng := Fixtures.zero_random)
                (Student.init [1] [0.5] [0.25] 42) 0 3
              = Py.Ok (true,
                  Student.mk (rng := Fixtures.zero_random)
                    [Py.min (Py.max 1e-6 (1 * (1 - 0.5))) 1e2] [0.5] [0.25] 42 [3] tt)).
  { unfold Student.review, Student.recall, Student.init. cbn.
    unfold Py.ltb.
    destruct (Rlt_dec 0 (exp (- (1 * (3 - 0))))) as [_|n];
      [reflexivity | exfalso; apply n, exp_pos]. }
  split.
  - exact (proj1 review_keeps_rates_in_range _ _ 0%nat 3 true E).
  - apply (proj1 (proj2 review_keeps_rates_in_range) [1] [0.5] [0.25] 42%Z [(0%nat, 3)]).
    + repeat constructor; unfold Student.rate_ok; lra.
    + cbn [Student.reviews]. rewrite E. reflexivity.
Defined.

(** ** [Scenario.run]: the accounting of the horizon *)

Section ScenarioFacts.
Context {rng : NumpyRandom} {smp : ExpCDFSamplerSig}.

Lemma generate_sample_clock (s : Scenario.t) :
  Scenario.same_clock s (snd (Scenario.generate_sample s)).
Proof.
  unfold Scenario.generate_sample, Scenario.same_clock.
  destruct (generate_sample (Scenario.exp_sampler s)) as [t_next sm].
  destruct (choice _ _ _) as [item rs]. simpl. auto.
Qed.

Lemma advance_clock (s s' : Scenario.t) (t_next : R) (item : nat) (d : R) (x : R * nat) :
  Scenario.advance s t_next item d = Py.Ok (x, s') -> Scenario.same_clock s s'.
Proof.
  unfold Scenario.advance, Scenario.update_hidden_state.
  destruct (Student.review _ _ _) as [[r st]|]; simpl; [|discriminate].
  destruct (Py.getitem (Scenario.Wm s) item) as [e|]; simpl; [|discriminate].
  destruct (register_event _ _ _ _) as [t' sm].
  intros E. inversion E as [E'].
  match type of E' with
  | Scenario.generate_sample ?s0 = _ =>
      pose proof (generate_sample_clock s0) as Hc; rewrite E' in Hc
  end.
  unfold Scenario.same_clock in *. simpl in Hc. exact Hc.
Qed.

Lemma record_event_lagging (s : Scenario.t) (time t_next : R) (item : nat) :
  Scenario.lagging time s -> Scenario.lagging t_next (Scenario.record_event s time t_next item).
Proof.
  unfold Scenario.lagging. intros [Hs _]. simpl. rewrite sum_app, last_last.
  unfold Tensor.sum at 2. simpl. split; lra.
Qed.

Lemma run_loop_lagging (fuel : nat) (max_events : option nat) :
  forall (idx : nat) (time t_next : R) (item : nat) (s s' : Scenario.t),
    Scenario.lagging time s ->
    Scenario.run_loop fuel max_events idx time t_next item s = Some (Py.Ok s') ->
    Scenario.T s' = Scenario.T s /\ Scenario._init s' = Scenario._init s /\
    exists time', Scenario.lagging time' s'.
Proof.
  induction fuel as [|fuel IH]; intros idx time t_next item s s' Hl; simpl;
    destruct (Scenario.below idx max_events && Py.ltb t_next (Scenario.T s));
    try discriminate.
  - intros E. inversion E; subst. eauto.
  - destruct (Scenario.advance _ _ _ _) as [[[t' i'] s1]|] eqn:Ea; [|discriminate].
    intros E. apply advance_clock in Ea. destruct Ea as (ET & Ed & El & Ei).
    eapply IH in E.
    + destruct E as (ET' & Ei' & Hx). simpl in *. split; [congruence|]. split; [congruence|].
      exact Hx.
    + pose proof (record_event_lagging s time t_next item Hl) as Hr.
      unfold Scenario.lagging in *. rewrite Ed, El. exact Hr.
  - intros E. inversion E; subst. eauto.
Qed.

(** What [run] leaves behind: the recorded deltas plus the last interval
    exceed the horizon by the latest recorded delta (by [1] when no event
    was recorded). *)
Lemma run_horizon_accounting (fuel : nat) (max_events : option nat)
    (s s' : Scenario.t) :
  Scenario.time_deltas s = [] ->
  Scenario.last_time s = -1 ->
  Scenario.run fuel s max_events = Some (Py.Ok s') ->
  exists last_interval : R,
    Scenario.get_last_interval s' = Py.Ok last_interval /\
    Tensor.sum (Scenario.time_deltas s') + last_interval
    = Scenario.T s + last (Scenario.time_deltas s') 1.
Proof.
  intros Hd Hl. unfold Scenario.run.
  destruct (Scenario._init s) eqn:Ei; [discriminate|].
  pose proof (generate_sample_clock (Scenario.set_init s)) as Hc.
  destruct (Scenario.generate_sample (Scenario.set_init s)) as [[t_next item] s0].
  destruct Hc as (ET & Ed & El & Ei0). simpl in *.
  intros E. apply run_loop_lagging with (time := 0) in E.
  - destruct E as (ET' & Ei' & time' & Hs & Hlast).
    unfold Scenario.get_last_interval. rewrite Ei', Ei0.
    eexists. split; [reflexivity|]. rewrite ET', ET. lra.
  - unfold Scenario.lagging. rewrite Ed, El, Hd, Hl. simpl. unfold Tensor.sum. simpl. split; lra.
Qed.

(** With a bound on the number of events, [run] returns once the fuel
    exceeds the bound, whatever the sampler proposes. *)
Lemma run_loop_returns (m : nat) :
  forall (fuel idx : nat) (time t_next : R) (item : nat) (s : Scenario.t),
    (m - idx < fuel)%nat ->
    exists r, Scenario.run_loop fuel (Some m) idx time t_next item s = Some r.
Proof.
  induction fuel as [|fuel IH]; intros idx time t_next item s Hf; [lia|].
  simpl. destruct (Nat.ltb_spec idx m); simpl.
  - destruct (Py.ltb t_next (Scenario.T s)); [|eauto].
    destruct (Scenario.advance _ _ _ _) as [[[t' i'] s1]|]; [|eauto].
    apply IH. lia.
  - eauto.
Qed.

End ScenarioFacts.

(** C4.  Required: the recorded [time_delta] values of a completed
    trajectory plus its [last_interval] add up to the horizon [T].
    [Scenario.run] assigns [last_time = t] before [t] advances to the event
    being recorded, so [get_last_interval] measures from the event before
    the last one.  Here the sampler proposes the times [3] and [12] and the
    horizon is [10]: one event is recorded with delta [3], the last
    interval is [10] instead of [7], and the total is [13]. *)
Theorem scenario_run_overshoots_horizon :
  let s0 : Scenario.t :=
    Scenario.init (rng := Fixtures.zero_random)
      (smp := Fixtures.scripted_sampler [3; 12])
      [0.5] [0.25] 7 [[0]] [[1]] [0] [0] [0] [[0]] (-1) [0] 0 [0] 10 in
  exists (s' : Scenario.t) (last_interval : R),
    Scenario.run 2 s0 (Some MAX_EVENTS) = Some (Py.Ok s') /\
    Scenario.time_deltas s' = [3 - 0] /\
    Scenario.get_last_interval s' = Py.Ok last_interval /\
    Scenario.T s' = 10 /\
    Tensor.sum (Scenario.time_deltas s') + last_interval = 10 + 3.
Proof.
  intros s0.
  destruct (review_returns (rng := Fixtures.zero_random)
              (Scenario.student s0) 0 3) as (r & st & Er); try reflexivity.
  { simpl. lia. }
  unfold Scenario.run. cbn [Scenario._init s0 Scenario.init].
  cbn.
  rewrite (ltb_true 3 10) by lra.
  unfold Scenario.advance, Scenario.update_hidden_state.
  cbn [Scenario.record_event Scenario.student].
  fold s0 in Er. change (Student.init [1] [0.5] [0.25] 14) with (Scenario.student s0).
  rewrite Er. cbn.
  rewrite (ltb_false 12 10) by lra.
  do 2 eexists. split; [reflexivity|]. cbn.
  split; [reflexivity|]. split; [reflexivity|]. split; [reflexivity|].
  unfold Tensor.sum. simpl. lra.
Qed.

(** Without any event [last_time] keeps its initial value [-1]: the last
    interval of an empty trajectory is [T + 1]. *)
Example scenario_run_without_events :
  let s0 : Scenario.t :=
    Scenario.init (rng := Fixtures.zero_random)
      (smp := Fixtures.scripted_sampler [12])
      [0.5] [0.25] 7 [[0]] [[1]] [0] [0] [0] [[0]] (-1) [0] 0 [0] 10 in
  exists s' : Scenario.t,
    Scenario.run 1 s0 (Some MAX_EVENTS) = Some (Py.Ok s') /\
    Scenario.time_deltas s' = [] /\
    Scenario.get_last_interval s' = Py.Ok (10 - -1).
Proof.
  intros s0. unfold Scenario.run. cbn.
  rewrite (ltb_false 12 10) by lra.
  eexists. split; [reflexivity|]. split; reflexivity.
Qed.

Lemma consecutive_sum (df : list DfRow.t) (t0 : R) :
  Shape.consecutive t0 df ->
  Tensor.sum (map DfRow.time_delta df) = last (map DfRow.time df) t0 - t0.
Proof.
  revert t0. induction df as [|e df IH]; intros t0; simpl.
  - intros _. unfold Tensor.sum. simpl. lra.
  - intros [Hd Hc]. apply IH in Hc.
    change (Tensor.sum (DfRow.time_delta e :: map DfRow.time_delta df))
      with (DfRow.time_delta e + Tensor.sum (map DfRow.time_delta df)).
    rewrite Hc, Hd.
    change (match map DfRow.time df with
            | [] => DfRow.time e
            | _ :: _ => last (map DfRow.time df) t0
            end) with (last (DfRow.time e :: map DfRow.time df) t0).
    rewrite last_cons. lra.
Qed.

(** The accounting of [ExpRecurrentTrainer.get_feed_dict]: for a simulation
    that fits in [max_events], the fed deltas and the last interval add up
    to the horizon. *)
Lemma feed_row_horizon (tr : ExpRecurrentTrainer.t) (df : list DfRow.t)
    (f : ExpRecurrentTrainer.feed) :
  Shape.consecutive 0 df ->
  (length df <= ExpRecurrentTrainer.max_events tr)%nat ->
  ExpRecurrentTrainer.get_feed_row tr df = Some (Py.Ok f) ->
  Tensor.sum (ExpRecurrentTrainer.batch_t_deltas f)
  + ExpRecurrentTrainer.batch_last_interval f
  = SimOpts.end_time (ExpRecurrentTrainer.sim_opts tr).
Proof.
  intros Hc Hn. unfold ExpRecurrentTrainer.get_feed_row.
  destruct (ExpRecurrentTrainer.map_src _ df) as [idxes|]; [|discriminate].
  rewrite Nat.min_l by exact Hn. rewrite Nat.eqb_refl.
  destruct (rev df) as [|e l] eqn:Er; [discriminate|].
  intros E. inversion E; subst f; clear E. simpl.
  unfold ExpRecurrentTrainer.pad.
  rewrite sum_app, sum_repeat_0.
  rewrite firstn_all2 by (rewrite length_map; lia).
  rewrite (consecutive_sum df 0 Hc).
  assert (El : last (map DfRow.time df) 0 = DfRow.time e).
  { rewrite <- (rev_involutive df), Er. simpl. rewrite map_app. simpl.
    apply last_last. }
  rewrite El. lra.
Qed.

(** ** [ExpRecurrentTrainer]: the likelihood and the loss of the training graph *)

Ltac norm_exp :=
  repeat match goal with
         | |- context [exp ?e] => progress (ring_simplify e)
         end.

Ltac eval_graph :=
  cbn;
  unfold ExpRecurrentTrainer.LL, ExpRecurrentTrainer.loss,
    ExpRecurrentTrainer.LL_last_term, ExpRecurrentTrainer.loss_last_term;
  cbn;
  unfold ExpRecurrentTrainer.LL_log_term, ExpRecurrentTrainer.LL_int_term,
    ExpRecurrentTrainer.loss_term, ExpRecurrentTrainer.batch_u_theta;
  cbn;
  rewrite ?ln_exp; norm_exp; rewrite ?exp_0;
  rewrite <- ?(opp_IZR 1); cbn [Z.opp].

Ltac list_eq :=
  repeat (apply (f_equal2 (@cons R)); [first [ring | lra | field]|]); reflexivity.

Lemma LL_unfolded (tr : ExpRecurrentTrainer.t) (f : ExpRecurrentTrainer.feed) :
  let st := ExpRecurrentTrainer.unroll tr f in
  ExpRecurrentTrainer.LL tr f
  = 2 * Tensor.sum (ExpRecurrentTrainer.LL_log_terms st)
    + ExpRecurrentTrainer.LL_last_term tr f (ExpRecurrentTrainer.tf_batch_h_t st).
Proof. unfold ExpRecurrentTrainer.LL. simpl. lra. Qed.

(** [ExpRecurrentTeacher.LL_stack] is the sum of the log terms minus the sum
    of the integral terms plus the last term. *)
Lemma teacher_LL_stack_unfolded (o : ExpRecurrentTeacher.outputs) :
  ExpRecurrentTeacher.LL_stack o
  = Tensor.sum (ExpRecurrentTeacher.LL_log_terms_stack o)
    - Tensor.sum (ExpRecurrentTeacher.LL_int_terms_stack o)
    + ExpRecurrentTeacher.LL_last_term_stack o.
Proof. reflexivity. Qed.

(** C1.  Required: the log-likelihood of a trajectory is the sum of its
    log-intensity terms minus the sum of its survival integral terms plus
    the terminal survival term.  [ExpRecurrentTrainer] adds the list of log
    terms twice and never reads the integral terms.  For one event of the
    trained source at time [1] (horizon [2], [u(t) = exp(-t)]) the log term
    is [-1], the integral term [1 - exp(-1)], the terminal term
    [-(1 - exp(-1))]; the graph yields [-1 + -1 - (1 - exp(-1))], which
    differs from the required value by [exp(-1)]. *)
Theorem trainer_LL_adds_log_terms_twice :
  let tr := Fixtures.trainer 0 [1%nat] 1 0 in
  let df := [DfRow.mk 0 5 1 1 0] in
  exists f : ExpRecurrentTrainer.feed,
    ExpRecurrentTrainer.get_feed_dict tr [df] = Some (Py.Ok [f]) /\
    let st := ExpRecurrentTrainer.unroll tr f in
    ExpRecurrentTrainer.LL_log_terms st = [-1] /\
    ExpRecurrentTrainer.LL_int_terms st = [1 - exp (-1)] /\
    ExpRecurrentTrainer.LL_last_term tr f (ExpRecurrentTrainer.tf_batch_h_t st)
    = - (1 - exp (-1)) /\
    ExpRecurrentTrainer.LL tr f = -1 + -1 - (1 - exp (-1)) /\
    ExpRecurrentTrainer.LL tr f
    <> Tensor.sum (ExpRecurrentTrainer.LL_log_terms st)
       - Tensor.sum (ExpRecurrentTrainer.LL_int_terms st)
       + ExpRecurrentTrainer.LL_last_term tr f (ExpRecurrentTrainer.tf_batch_h_t st).
Proof.
  intros tr df. eexists. split; [cbn; reflexivity|].
  pose proof (exp_pos (-1)) as He.
  repeat split.
  - eval_graph. list_eq.
  - eval_graph. list_eq.
  - eval_graph. lra.
  - eval_graph. lra.
  - eval_graph. lra.
Qed.

(** C2.  Required: a step whose index is at least [seq_len] adds zero to
    every accumulated sum, so that padding a batch with further steps
    changes no likelihood.  The mask of [ExpRecurrentTrainer] is
    [evt_idx <= seq_len]: the first padded step passes it.  One simulation
    with a single event of the trained source (index [0], bias [bt = 1]) is
    fed with [max_events = 1] and with [max_events = 2]; in the second
    graph the step of index [1 = seq_len] has delta [0] and contributes the
    log term [1], and the likelihood grows by [2]. *)
Theorem trainer_mask_admits_padded_step :
  let tr1 := Fixtures.trainer 0 [1%nat] 1 1 in
  let tr2 := Fixtures.trainer 0 [1%nat] 2 1 in
  let df := [DfRow.mk 0 5 1 1 0] in
  exists f1 f2 : ExpRecurrentTrainer.feed,
    ExpRecurrentTrainer.get_feed_dict tr1 [df] = Some (Py.Ok [f1]) /\
    ExpRecurrentTrainer.get_feed_dict tr2 [df] = Some (Py.Ok [f2]) /\
    ExpRecurrentTrainer.batch_seq_len f2 = 1%nat /\
    ExpRecurrentTrainer.batch_t_deltas f2 = [1; 0] /\
    nth 1 (ExpRecurrentTrainer.LL_log_terms (ExpRecurrentTrainer.unroll tr2 f2)) 0 = 1 /\
    ExpRecurrentTrainer.LL tr2 f2 = ExpRecurrentTrainer.LL tr1 f1 + 2.
Proof.
  intros tr1 tr2 df. do 2 eexists.
  split; [cbn; reflexivity|]. split; [cbn; reflexivity|].
  repeat split.
  - eval_graph. ring.
  - eval_graph. lra.
Qed.

(** C6.  Required: the log-intensity term of a step is included exactly
    when the event of the step belongs to the trained source.  The graph of
    [ExpRecurrentTrainer] compares the embedding index of the event, which
    is [0] for the trained source, with the identifier [sim_opts.src_id].
    With the trained source [1] and a competitor [2], a simulation of two
    events (the first by source [1], the second by source [2]; every
    [u(delta) = exp(-1)]) is fed as indices [[0; 1]]: the log term of the
    trained source's own event is [0] and the competitor's is [-1].  The
    integral terms of both steps are computed, and the likelihood, twice
    the sum of the log terms plus a vanishing last term, contains none of
    them. *)
Theorem trainer_log_term_follows_index_not_owner :
  let tr := Fixtures.trainer 1 [2%nat] 2 0 in
  let df := [DfRow.mk 1 5 1 1 0; DfRow.mk 2 5 2 1 0] in
  exists f : ExpRecurrentTrainer.feed,
    ExpRecurrentTrainer.get_feed_dict tr [df] = Some (Py.Ok [f]) /\
    ExpRecurrentTrainer.batch_b_idxes f = [0%nat; 1%nat] /\
    let st := ExpRecurrentTrainer.unroll tr f in
    ExpRecurrentTrainer.LL_log_terms st = [0; -1] /\
    ExpRecurrentTrainer.LL_int_terms st = [1 - exp (-1); 1 - exp (-1)] /\
    ExpRecurrentTrainer.LL tr f = 2 * -1 + 0.
Proof.
  intros tr df. eexists. split; [cbn; reflexivity|]. split; [cbn; reflexivity|].
  repeat split.
  - eval_graph. list_eq.
  - eval_graph. list_eq.
  - eval_graph. lra.
Qed.

(** ** The quadratic loss *)

Lemma pow_rate_0 (x : R) : TF.pow x 0 = 1.
Proof. unfold TF.pow. destruct (Req_dec_T 0 0); [reflexivity | contradiction]. Qed.

Lemma unroll_lengths (tr : ExpRecurrentTrainer.t) (f : ExpRecurrentTrainer.feed) :
  let st := ExpRecurrentTrainer.unroll tr f in
  length (ExpRecurrentTrainer.LL_log_terms st) = ExpRecurrentTrainer.max_events tr /\
  length (ExpRecurrentTrainer.LL_int_terms st) = ExpRecurrentTrainer.max_events tr /\
  length (ExpRecurrentTrainer.loss_terms st) = ExpRecurrentTrainer.max_events tr.
Proof.
  unfold ExpRecurrentTrainer.unroll.
  assert (G : forall l st,
    let st' := fold_left (ExpRecurrentTrainer.body tr f) l st in
    length (ExpRecurrentTrainer.LL_log_terms st')
      = (length (ExpRecurrentTrainer.LL_log_terms st) + length l)%nat /\
    length (ExpRecurrentTrainer.LL_int_terms st')
      = (length (ExpRecurrentTrainer.LL_int_terms st) + length l)%nat /\
    length (ExpRecurrentTrainer.loss_terms st')
      = (length (ExpRecurrentTrainer.loss_terms st) + length l)%nat).
  { induction l as [|i l IH]; intros st; simpl; [lia|].
    specialize (IH (ExpRecurrentTrainer.body tr f st i)). simpl in IH.
    rewrite !length_app in IH. simpl in IH. lia. }
  specialize (G (seq 0 (ExpRecurrentTrainer.max_events tr)) (ExpRecurrentTrainer.loop_init tr)).
  simpl in G. rewrite length_seq in G. exact G.
Qed.

(** C5, as stated, fails for [ExpRecurrentTeacher]: with [q = 2],
    [decay_q_rate = 1] and [global_step = 2] a row whose quadratic terms
    add up to [1] has loss [2], not [(q / 2) * 1 = 1]. *)
Lemma teacher_loss_has_decay_factor :
  let te := ExpRecurrentTeacher.mk 2 1 true 1 2 16 "teacher-log" None in
  let o := ExpRecurrentTeacher.mk_outputs [0] [0] [1] 0 0 in
  ExpRecurrentTeacher.loss_stack te o = 2 /\
  ExpRecurrentTeacher.loss_stack te o
  <> (ExpRecurrentTeacher.q te / 2)
     * (Tensor.sum (ExpRecurrentTeacher.loss_terms_stack o)
        + ExpRecurrentTeacher.loss_last_term_stack o).
Proof.
  assert (E : ExpRecurrentTeacher.loss_stack
                (ExpRecurrentTeacher.mk 2 1 true 1 2 16 "teacher-log" None)
                (ExpRecurrentTeacher.mk_outputs [0] [0] [1] 0 0) = 2).
  { unfold ExpRecurrentTeacher.loss_stack, TF.pow, Tensor.sum. simpl.
    destruct (Req_dec_T 1 0); [lra|]. destruct (Req_dec_T (1 + 1) 0); [lra|].
    rewrite Rpower_1 by lra. lra. }
  split; [exact E|]. rewrite E. unfold Tensor.sum. simpl. lra.
Qed.

(** C5, amended.  In [ExpRecurrentTrainer] the loss of a trajectory is
    [(q / 2)] times the sum of its [max_events] per-step quadratic terms
    and the terminal quadratic term of [last_interval], with the fixed
    [q = 10].  In [ExpRecurrentTeacher] it is that product for the
    configured [q], multiplied by [global_step ** decay_q_rate]; the factor
    is [1] when [decay_q_rate = 0]. *)
Theorem loss_is_weighted_quadratic_sum :
  (forall (Wm Wh : Tensor.mat) (Wt Wr Bh vt : Tensor.vec) (wt bt : R)
          (init_h : Tensor.vec) (o : SimOpts.t) (batch_size max_events : nat)
          (f : ExpRecurrentTrainer.feed),
      let tr := ExpRecurrentTrainer.init Wm Wh Wt Wr Bh vt wt bt init_h o
                  batch_size max_events in
      let st := ExpRecurrentTrainer.unroll tr f in
      length (ExpRecurrentTrainer.loss_terms st) = max_events /\
      ExpRecurrentTrainer.loss tr f
      = (10 / 2) * (Tensor.sum (ExpRecurrentTrainer.loss_terms st)
                    + ExpRecurrentTrainer.loss_last_term tr f
                        (ExpRecurrentTrainer.tf_batch_h_t st)))
  /\
  (forall (te : ExpRecurrentTeacher.t) (o : ExpRecurrentTeacher.outputs),
      ExpRecurrentTeacher.loss_stack te o
      = (ExpRecurrentTeacher.q te / 2)
        * (Tensor.sum (ExpRecurrentTeacher.loss_terms_stack o)
           + ExpRecurrentTeacher.loss_last_term_stack o)
        * TF.pow (INR (ExpRecurrentTeacher.global_step te))
            (ExpRecurrentTeacher.decay_q_rate te))
  /\
  (forall (te : ExpRecurrentTeacher.t) (o : ExpRecurrentTeacher.outputs),
      ExpRecurrentTeacher.decay_q_rate te = 0 ->
      ExpRecurrentTeacher.loss_stack te o
      = (ExpRecurrentTeacher.q te / 2)
        * (Tensor.sum (ExpRecurrentTeacher.loss_terms_stack o)
           + ExpRecurrentTeacher.loss_last_term_stack o)).
Proof.
  split; [|split].
  - intros. split.
    + apply (unroll_lengths tr f).
    + unfold ExpRecurrentTrainer.loss. fold st. subst tr. simpl. lra.
  - intros te o. reflexivity.
  - intros te o E0. unfold ExpRecurrentTeacher.loss_stack.
    rewrite E0, pow_rate_0. lra.
Qed.

Lemma loss_is_weighted_quadratic_sum_witness :
  let te := ExpRecurrentTeacher.mk 0.001 1 true 0 7 16 "teacher-log" None in
  let o := ExpRecurrentTeacher.mk_outputs [0] [0] [1; 3] 0 2 in
  ExpRecurrentTeacher.decay_q_rate te = 0 /\
  ExpRecurrentTeacher.loss_stack te o = (0.001 / 2) * (Tensor.sum [1; 3] + 2).
Proof.
  intros te o. split; [reflexivity|].
  exact (proj2 (proj2 loss_is_weighted_quadratic_sum) te o eq_refl).
Defined.

(** ** The policy-gradient combination *)

Lemma tile2_repeat (c : R) (k1 k2 : nat) :
  ExpRecurrentTeacher.tile2 (repeat c k1) k2 = repeat (repeat c k2) k1.
Proof. unfold ExpRecurrentTeacher.tile2. apply map_repeat. Qed.

(** The summand of the dimension-2 case, entry by entry. *)
Lemma add_loss2_entry (is_Vy : bool) (coef : list R) (LL_grad loss_grad : list (list R))
    (b k i j : nat) :
  length coef = b -> length LL_grad = b -> length loss_grad = b ->
  Shape.rows k LL_grad -> Shape.rows k loss_grad ->
  (is_Vy = true -> Forall (Forall (fun x => x = 0)) loss_grad) ->
  (i < b)%nat -> (j < k)%nat ->
  let x := ExpRecurrentTeacher.add_loss2 is_Vy
             (Tensor.mmul LL_grad (ExpRecurrentTeacher.tile2 coef k)) loss_grad in
  length x = b /\ length (nth i x []) = k /\
  nth j (nth i x []) 0
  = nth j (nth i LL_grad []) 0 * nth i coef 0 + nth j (nth i loss_grad []) 0.
Proof.
  intros Hc HL Hl HrL Hrl Hz Hi Hj x.
  assert (Ht : length (ExpRecurrentTeacher.tile2 coef k) = b).
  { unfold ExpRecurrentTeacher.tile2. now rewrite length_map. }
  assert (Hm : length (Tensor.mmul LL_grad (ExpRecurrentTeacher.tile2 coef k)) = b).
  { unfold Tensor.mmul. rewrite zip_with_length. lia. }
  assert (HLi : length (nth i LL_grad []) = k).
  { apply (Forall_nth_lt _ _ i [] HrL). lia. }
  assert (Hli : length (nth i loss_grad []) = k).
  { apply (Forall_nth_lt _ _ i [] Hrl). lia. }
  assert (Hmi : nth i (Tensor.mmul LL_grad (ExpRecurrentTeacher.tile2 coef k)) []
                = Tensor.vmul (nth i LL_grad []) (repeat (nth i coef 0) k)).
  { unfold Tensor.mmul. rewrite (zip_with_nth _ _ _ i [] [] []) by lia.
    f_equal. unfold ExpRecurrentTeacher.tile2.
    apply (map_nth_lt (fun c => repeat c k)). lia. }
  assert (Hv : length (Tensor.vmul (nth i LL_grad []) (repeat (nth i coef 0) k)) = k).
  { unfold Tensor.vmul. rewrite zip_with_length, repeat_length. lia. }
  assert (Hvj : nth j (Tensor.vmul (nth i LL_grad []) (repeat (nth i coef 0) k)) 0
                = nth j (nth i LL_grad []) 0 * nth i coef 0).
  { unfold Tensor.vmul.
    rewrite (zip_with_nth _ _ _ j 0 0 0) by (rewrite ?repeat_length; lia).
    now rewrite nth_repeat_lt. }
  subst x. unfold ExpRecurrentTeacher.add_loss2. destruct is_Vy.
  - rewrite length_map. split; [exact Hm|].
    rewrite (map_nth_lt _ _ i []) by lia. rewrite Hmi, length_map.
    split; [exact Hv|].
    rewrite (map_nth_lt _ _ j 0) by lia. rewrite Hvj.
    assert (E0 : nth j (nth i loss_grad []) 0 = 0).
    { apply (Forall_nth_lt (fun x => x = 0)); [|lia].
      apply (Forall_nth_lt _ _ i [] (Hz eq_refl)). lia. }
    rewrite E0. reflexivity.
  - unfold Tensor.madd. rewrite zip_with_length. split; [lia|].
    rewrite (zip_with_nth _ _ _ i [] [] []) by lia. rewrite Hmi.
    unfold Tensor.vadd at 1. rewrite zip_with_length. split; [lia|].
    unfold Tensor.vadd. rewrite (zip_with_nth _ _ _ j 0 0 0) by lia.
    now rewrite Hvj.
Qed.

(** The summand of the dimension-3 case, entry by entry. *)
Lemma add_loss3_entry (is_Vy : bool) (coef : list R)
    (LL_grad loss_grad : list (list (list R))) (b k1 k2 i j1 j2 : nat) :
  length coef = b -> length LL_grad = b -> length loss_grad = b ->
  Shape.slices k1 k2 LL_grad -> Shape.slices k1 k2 loss_grad ->
  (is_Vy = true -> Forall (Forall (Forall (fun x => x = 0))) loss_grad) ->
  (i < b)%nat -> (j1 < k1)%nat -> (j2 < k2)%nat ->
  let x := ExpRecurrentTeacher.add_loss3 is_Vy
             (Tensor.zip_with Tensor.mmul LL_grad
                (ExpRecurrentTeacher.tile3 coef k1 k2)) loss_grad in
  length x = b /\ length (nth i x []) = k1 /\
  length (nth j1 (nth i x []) []) = k2 /\
  nth j2 (nth j1 (nth i x []) []) 0
  = nth j2 (nth j1 (nth i LL_grad []) []) 0 * nth i coef 0
    + nth j2 (nth j1 (nth i loss_grad []) []) 0.
Proof.
  intros Hc HL Hl HsL Hsl Hz Hi Hj1 Hj2 x.
  assert (Ht : length (ExpRecurrentTeacher.tile3 coef k1 k2) = b).
  { unfold ExpRecurrentTeacher.tile3. now rewrite length_map. }
  assert (Hm : length (Tensor.zip_with Tensor.mmul LL_grad
                         (ExpRecurrentTeacher.tile3 coef k1 k2)) = b).
  { rewrite zip_with_length. lia. }
  destruct (Forall_nth_lt _ _ i [] HsL ltac:(lia)) as [HLi HLr].
  destruct (Forall_nth_lt _ _ i [] Hsl ltac:(lia)) as [Hli Hlr].
  assert (Hmi : nth i (Tensor.zip_with Tensor.mmul LL_grad
                         (ExpRecurrentTeacher.tile3 coef k1 k2)) []
                = Tensor.mmul (nth i LL_grad [])
                    (ExpRecurrentTeacher.tile2 (repeat (nth i coef 0) k1) k2)).
  { rewrite (zip_with_nth _ _ _ i [] [] []) by lia.
    f_equal. rewrite tile2_repeat. unfold ExpRecurrentTeacher.tile3.
    apply (map_nth_lt (fun c => repeat (repeat c k2) k1)). lia. }
  assert (Hslice :
    let y := ExpRecurrentTeacher.add_loss2 is_Vy
               (Tensor.mmul (nth i LL_grad [])
                  (ExpRecurrentTeacher.tile2 (repeat (nth i coef 0) k1) k2))
               (nth i loss_grad []) in
    length y = k1 /\ length (nth j1 y []) = k2 /\
    nth j2 (nth j1 y []) 0
    = nth j2 (nth j1 (nth i LL_grad []) []) 0 * nth j1 (repeat (nth i coef 0) k1) 0
      + nth j2 (nth j1 (nth i loss_grad []) []) 0).
  { apply add_loss2_entry; auto using repeat_length.
    intros E. apply (Forall_nth_lt _ _ i [] (Hz E)). lia. }
  rewrite nth_repeat_lt in Hslice by exact Hj1.
  subst x. unfold ExpRecurrentTeacher.add_loss3.
  unfold ExpRecurrentTeacher.add_loss2 in Hslice. destruct is_Vy.
  - rewrite length_map. split; [exact Hm|].
    rewrite (map_nth_lt _ _ i []) by lia. rewrite Hmi. exact Hslice.
  - rewrite zip_with_length. split; [lia|].
    rewrite (zip_with_nth _ _ _ i [] [] []) by lia. rewrite Hmi. exact Hslice.
Qed.

Lemma coef_length (te : ExpRecurrentTeacher.t) (rewards loss : list R) :
  length loss = length rewards ->
  length (ExpRecurrentTeacher.coef te rewards loss) = length rewards.
Proof.
  intros Hl. unfold ExpRecurrentTeacher.coef, Tensor.vadd.
  rewrite length_map, zip_with_length. lia.
Qed.

Lemma coef_nth (te : ExpRecurrentTeacher.t) (rewards loss : list R) (i : nat) :
  length loss = length rewards -> (i < length rewards)%nat ->
  nth i (ExpRecurrentTeacher.coef te rewards loss) 0
  = nth i rewards 0 + nth i loss 0 - ExpRecurrentTeacher.avg_reward te rewards loss.
Proof.
  intros Hl Hi. unfold ExpRecurrentTeacher.coef, Tensor.vadd.
  rewrite (map_nth_lt _ _ i 0) by (rewrite zip_with_length; lia).
  now rewrite (zip_with_nth _ _ _ i 0 0 0) by lia.
Qed.

Lemma mean_seq_ext (b : nat) (g g' : nat -> R) :
  (forall i, (i < b)%nat -> g i = g' i) ->
  Tensor.sum (map g (seq 0 b)) / INR b = Tensor.mean (map g' (seq 0 b)).
Proof.
  intros E. rewrite mean_map_seq. do 2 f_equal. apply map_ext_in.
  intros i Hi. apply in_seq in Hi. apply E. lia.
Qed.

(** C3.  The entry of [avg_gradient_stack] for a variable [x] is, entry by
    entry of the variable, the mean over the batch of
    [coef_i * dLL_i/dx + dL_i/dx] with [coef_i = R_i + L_i - b], where [b]
    is [mean R + mean L] under [with_advantage] and [0] otherwise; [coef_i]
    multiplies every entry of the slice [i] of the gradient, whatever its
    dimension.  For [Vy], on which the loss does not depend, the code adds
    the number [0].  The tower gradients of [ExpRecurrentTrainer], which has
    no advantage option, are the same mean with [b = 0]. *)
Theorem policy_gradient_is_batch_mean :
  (forall (te : ExpRecurrentTeacher.t) (rewards loss : list R)
          (is_Vy : bool) (g : ExpRecurrentTeacher.grads),
      length loss = length rewards ->
      Shape.well_shaped (length rewards) g ->
      (is_Vy = true -> Shape.loss_grad_zero g) ->
      let b := if ExpRecurrentTeacher.with_advantage te
               then Tensor.mean rewards + Tensor.mean loss else 0 in
      let c := fun i => nth i rewards 0 + nth i loss 0 - b in
      match g, ExpRecurrentTeacher.avg_gradient
                 (ExpRecurrentTeacher.coef te rewards loss) is_Vy g with
      | ExpRecurrentTeacher.Grads1 LL_grad loss_grad, ExpRecurrentTeacher.Avg0 a =>
          a = Shape.batch_mean (length rewards) c
                (fun i => nth i LL_grad 0) (fun i => nth i loss_grad 0)
      | ExpRecurrentTeacher.Grads2 LL_grad loss_grad, ExpRecurrentTeacher.Avg1 a =>
          forall j : nat,
            (j < length (hd [] LL_grad))%nat ->
            nth j a 0
            = Shape.batch_mean (length rewards) c
                (fun i => nth j (nth i LL_grad []) 0)
                (fun i => nth j (nth i loss_grad []) 0)
      | ExpRecurrentTeacher.Grads3 LL_grad loss_grad, ExpRecurrentTeacher.Avg2 a =>
          forall j1 j2 : nat,
            (j1 < length (hd [] LL_grad))%nat ->
            (j2 < length (hd [] (hd [] LL_grad)))%nat ->
            nth j2 (nth j1 a []) 0
            = Shape.batch_mean (length rewards) c
                (fun i => nth j2 (nth j1 (nth i LL_grad []) []) 0)
                (fun i => nth j2 (nth j1 (nth i loss_grad []) []) 0)
      | _, _ => False
      end)
  /\
  (forall (k : nat) (rewards losses : list R) (LL_grads loss_grads : list Tensor.vec)
          (j : nat),
      length losses = length rewards ->
      length LL_grads = length rewards ->
      length loss_grads = length rewards ->
      Shape.rows k LL_grads -> Shape.rows k loss_grads ->
      (j < k)%nat ->
      nth j (TowerGradients.avg_gradient k rewards losses LL_grads loss_grads) 0
      = Shape.batch_mean (length rewards)
          (fun i => nth i rewards 0 + nth i losses 0 - 0)
          (fun i => nth j (nth i LL_grads []) 0)
          (fun i => nth j (nth i loss_grads []) 0)).
Proof.
  split.
  - intros te rewards loss is_Vy g Hl Hg Hz b c.
    pose proof (coef_length te rewards loss Hl) as Hc.
    assert (Hci : forall i, (i < length rewards)%nat ->
                    nth i (ExpRecurrentTeacher.coef te rewards loss) 0 = c i).
    { intros i Hi. now rewrite coef_nth. }
    destruct g as [LL_grad loss_grad | LL_grad loss_grad | LL_grad loss_grad]; simpl in *.
    + destruct Hg as [HL Hll].
      set (x := ExpRecurrentTeacher.add_loss1 is_Vy _ loss_grad).
      assert (Hx : x = map (fun i => c i * nth i LL_grad 0 + nth i loss_grad 0)
                         (seq 0 (length rewards))).
      { apply (nth_ext _ _ 0 ((fun i => c i * nth i LL_grad 0 + nth i loss_grad 0) 0%nat)).
        - subst x. unfold ExpRecurrentTeacher.add_loss1, Tensor.vadd, Tensor.vmul.
          rewrite length_map, length_seq.
          destruct is_Vy; rewrite ?length_map, !zip_with_length; lia.
        - intros i Hi.
          assert (Hi' : (i < length rewards)%nat).
          { subst x. unfold ExpRecurrentTeacher.add_loss1, Tensor.vadd, Tensor.vmul in Hi.
            destruct is_Vy; rewrite ?length_map, !zip_with_length in Hi; lia. }
          rewrite (map_nth (fun i => c i * nth i LL_grad 0 + nth i loss_grad 0)).
          rewrite seq_nth by lia. simpl.
          subst x. unfold ExpRecurrentTeacher.add_loss1, Tensor.vadd, Tensor.vmul.
          destruct is_Vy.
          + rewrite (map_nth_lt _ _ i 0) by (rewrite zip_with_length; lia).
            rewrite (zip_with_nth _ _ _ i 0 0 0) by lia.
            rewrite Hci by lia.
            rewrite (Forall_nth_lt (fun x => x = 0) loss_grad i 0 (Hz eq_refl)) by lia.
            ring.
          + rewrite (zip_with_nth _ _ _ i 0 0 0) by (rewrite ?zip_with_length; lia).
            rewrite (zip_with_nth _ _ _ i 0 0 0) by lia.
            rewrite Hci by lia. ring. }
      rewrite Hx. reflexivity.
    + destruct Hg as (HL & Hll & HrL & Hrl). intros j Hj.
      set (k := length (hd [] LL_grad)) in *.
      set (x := ExpRecurrentTeacher.add_loss2 is_Vy _ loss_grad).
      assert (Hent : forall i, (i < length rewards)%nat ->
                length x = length rewards /\ length (nth i x []) = k /\
                nth j (nth i x []) 0
                = nth j (nth i LL_grad []) 0 * nth i (ExpRecurrentTeacher.coef te rewards loss) 0
                  + nth j (nth i loss_grad []) 0).
      { intros i Hi. apply add_loss2_entry; auto. }
      assert (Hlen : length x = length rewards).
      { destruct (length rewards) as [|n] eqn:En.
        - subst x. unfold ExpRecurrentTeacher.add_loss2, Tensor.madd, Tensor.mmul.
          destruct is_Vy; rewrite ?length_map, !zip_with_length; lia.
        - apply (Hent 0%nat). lia. }
      rewrite reduce_mean0_1_nth; [|exact Hj|].
      * rewrite Hlen. apply mean_seq_ext. intros i Hi.
        destruct (Hent i Hi) as (_ & _ & ->). rewrite Hci by exact Hi. ring.
      * apply Forall_forall. intros r Hr.
        destruct (In_nth _ _ [] Hr) as (i & Hi & <-).
        destruct (Hent i ltac:(lia)) as (_ & -> & _). exact Hj.
    + destruct Hg as (HL & Hll & HsL & Hsl). intros j1 j2 Hj1 Hj2.
      set (k1 := length (hd [] LL_grad)) in *.
      set (k2 := length (hd [] (hd [] LL_grad))) in *.
      set (x := ExpRecurrentTeacher.add_loss3 is_Vy _ loss_grad).
      assert (Hent : forall i, (i < length rewards)%nat ->
                length x = length rewards /\ length (nth i x []) = k1 /\
                length (nth j1 (nth i x []) []) = k2 /\
                nth j2 (nth j1 (nth i x []) []) 0
                = nth j2 (nth j1 (nth i LL_grad []) []) 0
                    * nth i (ExpRecurrentTeacher.coef te rewards loss) 0
                  + nth j2 (nth j1 (nth i loss_grad []) []) 0).
      { intros i Hi. apply add_loss3_entry; auto. }
      assert (Hlen : length x = length rewards).
      { destruct (length rewards) as [|n] eqn:En.
        - subst x. unfold ExpRecurrentTeacher.add_loss3.
          destruct is_Vy; rewrite ?length_map, !zip_with_length;
            unfold ExpRecurrentTeacher.tile3; rewrite ?length_map; lia.
        - apply (Hent 0%nat). lia. }
      rewrite reduce_mean0_2_nth; [|exact Hj1|exact Hj2|].
      * rewrite Hlen. apply mean_seq_ext. intros i Hi.
        destruct (Hent i Hi) as (_ & _ & _ & ->). rewrite Hci by exact Hi. ring.
      * apply Forall_forall. intros m Hm.
        destruct (In_nth _ _ [] Hm) as (i & Hi & <-).
        destruct (Hent i ltac:(lia)) as (_ & -> & -> & _). split; assumption.
  - intros k rewards losses LL_grads loss_grads j Hl HL Hll HrL Hrl Hj.
    unfold TowerGradients.avg_gradient, TowerGradients.average_gradients.
    set (x := TowerGradients.tower_gradients rewards losses LL_grads loss_grads).
    assert (Hlen : length x = length rewards).
    { subst x. unfold TowerGradients.tower_gradients.
      rewrite length_map, !length_combine. lia. }
    assert (Hent : forall i, (i < length rewards)%nat ->
              nth i x [] = TowerGradients.tower_gradient (nth i rewards 0) (nth i losses 0)
                             (nth i LL_grads []) (nth i loss_grads [])).
    { intros i Hi. subst x. unfold TowerGradients.tower_gradients.
      rewrite (map_nth_lt _ _ i ((0, 0), ([], []))) by (rewrite !length_combine; lia).
      rewrite !combine_nth by (rewrite ?length_combine; lia). reflexivity. }
    assert (Hrow : forall i, (i < length rewards)%nat ->
              length (nth i x []) = k /\
              nth j (nth i x []) 0
              = (nth i rewards 0 + nth i losses 0) * nth j (nth i LL_grads []) 0
                + nth j (nth i loss_grads []) 0).
    { intros i Hi. rewrite Hent by exact Hi.
      assert (HLi : length (nth i LL_grads []) = k)
        by (apply (Forall_nth_lt _ _ i [] HrL); lia).
      assert (Hli : length (nth i loss_grads []) = k)
        by (apply (Forall_nth_lt _ _ i [] Hrl); lia).
      unfold TowerGradients.tower_gradient, Tensor.vadd, Tensor.scale.
      rewrite zip_with_length, length_map. split; [lia|].
      rewrite (zip_with_nth _ _ _ j 0 0 0) by (rewrite ?length_map; lia).
      rewrite (map_nth_lt _ _ j 0) by lia. reflexivity. }
    rewrite reduce_mean0_1_nth; [|exact Hj|].
    + rewrite Hlen. apply mean_seq_ext. intros i Hi.
      destruct (Hrow i Hi) as [_ ->]. ring.
    + apply Forall_forall. intros r Hr.
      destruct (In_nth _ _ [] Hr) as (i & Hi & <-).
      destruct (Hrow i ltac:(lia)) as [-> _]. exact Hj.
Qed.

Lemma policy_gradient_is_batch_mean_witness :
  let te := ExpRecurrentTeacher.mk 0.001 1 true 0 0 2 "teacher-log" None in
  let rewards := [1; 3] in
  let loss := [0; 2] in
  let LL_grad := [[1; 2]; [3; 4]] in
  let loss_grad := [[0; 1]; [1; 0]] in
  let g := ExpRecurrentTeacher.Grads2 LL_grad loss_grad in
  (length loss = length rewards /\ Shape.well_shaped (length rewards) g) /\
  match ExpRecurrentTeacher.avg_gradient
          (ExpRecurrentTeacher.coef te rewards loss) false g with
  | ExpRecurrentTeacher.Avg1 a =>
      forall j : nat,
        (j < 2)%nat ->
        nth j a 0
        = Shape.batch_mean 2
            (fun i => nth i rewards 0 + nth i loss 0
                      - (Tensor.mean rewards + Tensor.mean loss))
            (fun i => nth j (nth i LL_grad []) 0)
            (fun i => nth j (nth i loss_grad []) 0)
  | _ => False
  end.
Proof.
  intros te rewards loss LL_grad loss_grad g.
  assert (Hs : Shape.well_shaped (length rewards) g).
  { simpl. unfold Shape.rows. repeat constructor. }
  split; [split; [reflexivity | exact Hs]|].
  exact (proj1 policy_gradient_is_batch_mean te rewards loss false g eq_refl Hs
           (fun E : false = true => False_ind _ (Bool.diff_false_true E))).
Defined.

(** ** Clipping by the global norm *)

Lemma sum_sqr_nonneg (t : Tensor.vec) : 0 <= Tensor.sum (map Rsqr t).
Proof.
  unfold Tensor.sum. induction t as [|x t IH]; simpl; [lra|].
  pose proof (Rle_0_sqr x). lra.
Qed.

Lemma sqr_l2norm (t : Tensor.vec) : Rsqr (TF.l2norm t) = Tensor.sum (map Rsqr t).
Proof. unfold TF.l2norm. apply Rsqr_sqrt, sum_sqr_nonneg. Qed.

Lemma sum_sqr_l2norm_nonneg (t_list : list Tensor.vec) :
  0 <= Tensor.sum (map (fun t => Rsqr (TF.l2norm t)) t_list).
Proof.
  unfold Tensor.sum. induction t_list as [|t l IH]; simpl; [lra|].
  pose proof (Rle_0_sqr (TF.l2norm t)). lra.
Qed.

Lemma global_norm_nonneg (t_list : list Tensor.vec) : 0 <= TF.global_norm t_list.
Proof. unfold TF.global_norm. apply sqrt_pos. Qed.

Lemma sum_sqr_scaled (s : R) (t : Tensor.vec) :
  Tensor.sum (map Rsqr (map (fun x => x * s) t)) = Rsqr s * Tensor.sum (map Rsqr t).
Proof.
  unfold Tensor.sum. induction t as [|x t IH]; simpl; [unfold Rsqr; lra|].
  rewrite IH. unfold Rsqr. ring.
Qed.

(** Scaling every entry of every tensor by [s >= 0] scales the global norm
    by [s]. *)
Lemma global_norm_scaled (s : R) (t_list : list Tensor.vec) :
  0 <= s ->
  TF.global_norm (map (map (fun x => x * s)) t_list) = s * TF.global_norm t_list.
Proof.
  intros Hs. unfold TF.global_norm.
  assert (E : Tensor.sum (map (fun t => Rsqr (TF.l2norm t))
                            (map (map (fun x => x * s)) t_list))
              = Rsqr s * Tensor.sum (map (fun t => Rsqr (TF.l2norm t)) t_list)).
  { unfold Tensor.sum. induction t_list as [|t l IH]; simpl; [lra|].
    rewrite IH, !sqr_l2norm, sum_sqr_scaled. ring. }
  rewrite E, sqrt_mult; [|apply Rle_0_sqr|apply sum_sqr_l2norm_nonneg].
  now rewrite sqrt_Rsqr.
Qed.

Lemma map_map_id_ext (f : R -> R) (t_list : list Tensor.vec) :
  (forall x, f x = x) -> map (map f) t_list = t_list.
Proof.
  intros E. rewrite <- (map_id t_list) at 2. apply map_ext. intros t.
  rewrite <- (map_id t) at 2. apply map_ext. exact E.
Qed.

Lemma clip_by_global_norm_spec (t_list : list Tensor.vec) (clip_norm : R) :
  0 < clip_norm ->
  let g := TF.global_norm t_list in
  snd (TF.clip_by_global_norm t_list clip_norm) = g /\
  (clip_norm < g ->
     fst (TF.clip_by_global_norm t_list clip_norm)
     = map (map (fun x => x * (clip_norm / g))) t_list /\
     TF.global_norm (fst (TF.clip_by_global_norm t_list clip_norm)) = clip_norm) /\
  (g <= clip_norm ->
     fst (TF.clip_by_global_norm t_list clip_norm) = t_list).
Proof.
  intros Hc g. unfold TF.clip_by_global_norm. fold g. simpl.
  split; [reflexivity|]. split.
  - intros Hg.
    assert (E : map (map (fun x => x * clip_norm / Rmax g clip_norm)) t_list
                = map (map (fun x => x * (clip_norm / g))) t_list).
    { apply map_ext. intros t. apply map_ext. intros x.
      rewrite Rmax_left by lra. field. lra. }
    rewrite E. split; [reflexivity|].
    rewrite global_norm_scaled.
    + fold g. field. lra.
    + apply Rlt_le, Rdiv_lt_0_compat; lra.
  - intros Hg. apply map_map_id_ext. intros x.
    rewrite Rmax_right by lra. field. lra.
Qed.

(** C7.  For a positive [clip_norm]: [grad_norm_stack] is the global norm
    [g] of the gradients before clipping; the clipped gradients keep their
    variables; when [g > clip_norm] every entry is multiplied by
    [clip_norm / g] and the global norm of the clipped gradients is
    [clip_norm]; when [g <= clip_norm] the gradients are unchanged. *)
Theorem clipping_rescales_to_clip_norm (te : ExpRecurrentTeacher.t)
    (avg_gradient_stack : list (ExpRecurrentTeacher.avg * string)) :
  0 < ExpRecurrentTeacher.clip_norm te ->
  let t_list := map (fun gv => ExpRecurrentTeacher.flatten (fst gv)) avg_gradient_stack in
  let g := TF.global_norm t_list in
  let clipped := map fst (fst (ExpRecurrentTeacher.clipped_avg_gradient_stack te avg_gradient_stack)) in
  let grad_norm := snd (ExpRecurrentTeacher.clipped_avg_gradient_stack te avg_gradient_stack) in
  grad_norm = g /\
  map snd (fst (ExpRecurrentTeacher.clipped_avg_gradient_stack te avg_gradient_stack))
  = map snd avg_gradient_stack /\
  (ExpRecurrentTeacher.clip_norm te < g ->
     clipped = map (map (fun x => x * (ExpRecurrentTeacher.clip_norm te / g))) t_list /\
     TF.global_norm clipped = ExpRecurrentTeacher.clip_norm te) /\
  (g <= ExpRecurrentTeacher.clip_norm te -> clipped = t_list).
Proof.
  intros Hc t_list g clipped grad_norm.
  pose proof (clip_by_global_norm_spec t_list _ Hc) as Hs.
  subst clipped grad_norm. unfold ExpRecurrentTeacher.clipped_avg_gradient_stack.
  fold t_list. cbv zeta in Hs. fold g in Hs.
  destruct (TF.clip_by_global_norm t_list (ExpRecurrentTeacher.clip_norm te))
    as [cl gn] eqn:E.
  simpl in *.
  assert (Hlen : length cl = length (map snd avg_gradient_stack)).
  { unfold TF.clip_by_global_norm in E. inversion E.
    subst t_list. now rewrite !length_map. }
  assert (Hfst : map fst (combine cl (map snd avg_gradient_stack)) = cl).
  { clear -Hlen. revert Hlen. generalize (map snd avg_gradient_stack) as names.
    induction cl as [|c cl IH]; intros [|n names]; simpl; intros; try lia; auto.
    now rewrite IH by lia. }
  assert (Hsnd : map snd (combine cl (map snd avg_gradient_stack))
                 = map snd avg_gradient_stack).
  { clear -Hlen. revert Hlen. generalize (map snd avg_gradient_stack) as names.
    induction cl as [|c cl IH]; intros [|n names]; simpl; intros; try lia; auto.
    now rewrite IH by lia. }
  rewrite Hfst, Hsnd. destruct Hs as (Hn & Hbig & Hsmall).
  split; [exact Hn|]. split; [reflexivity|]. split; [exact Hbig | exact Hsmall].
Qed.

Lemma clipping_rescales_to_clip_norm_witness :
  let te := ExpRecurrentTeacher.mk 0.001 1 true 0 0 16 "teacher-log" None in
  let stack := [(ExpRecurrentTeacher.Avg1 [3; 4], "Wt"%string)] in
  0 < ExpRecurrentTeacher.clip_norm te /\
  TF.global_norm [[3; 4]] = 5 /\
  snd (ExpRecurrentTeacher.clipped_avg_gradient_stack te stack) = 5 /\
  TF.global_norm
    (map fst (fst (ExpRecurrentTeacher.clipped_avg_gradient_stack te stack))) = 1.
Proof.
  intros te stack.
  assert (Hc : 0 < ExpRecurrentTeacher.clip_norm te) by (simpl; lra).
  assert (Hg : TF.global_norm [[3; 4]] = 5).
  { unfold TF.global_norm. simpl. rewrite sqr_l2norm. unfold Tensor.sum. simpl.
    replace (Rsqr 3 + (Rsqr 4 + 0) + 0) with (5 * 5) by (unfold Rsqr; lra).
    apply sqrt_square. lra. }
  destruct (clipping_rescales_to_clip_norm te stack Hc) as (Hn & _ & Hbig & _).
  change (map (fun gv => ExpRecurrentTeacher.flatten (fst gv)) stack)
    with [[3; 4]] in Hn, Hbig.
  rewrite Hg in Hn, Hbig.
  split; [exact Hc|]. split; [exact Hg|]. split; [exact Hn|].
  apply Hbig. simpl. lra.
Defined.

(** ** Broadcasters: the next interval is never negative *)

Lemma leb_true (a b : R) : a <= b -> Py.leb a b = true.
Proof. intros Hab. unfold Py.leb. destruct (Rle_dec a b); [reflexivity | contradiction]. Qed.

Lemma leb_false (a b : R) : b < a -> Py.leb a b = false.
Proof. intros Hab. unfold Py.leb. destruct (Rle_dec a b); [lra | reflexivity]. Qed.

(** C8.  For every event handed to [get_next_interval] of either
    broadcaster: when the update of the hidden state raises, that exception
    is the outcome; otherwise the outcome is the difference
    [next_post_time - last_self_event_time] itself when it is non-negative
    and [AssertionError] when it is negative.  Hence a returned interval is
    never negative and never a clamped value.  (The start-up call, whose
    argument is [None] in place of an event, forwards the first sample of
    the sampler as it is.) *)
Theorem get_next_interval_never_negative {smp : ExpCDFSamplerSig} {env : RedQueenState} :
  (forall (b : ExpRecurrentBroadcaster.t) (e : Event.t),
      let b1 := ExpRecurrentBroadcaster.start b (Some e) in
      let outcome := fst (ExpRecurrentBroadcaster.get_next_interval b (Some e)) in
      match ExpRecurrentBroadcaster.update_hidden_state b1
              (Event.src_id e) (Event.time_delta e) with
      | Py.Raise ex => outcome = Py.Raise ex
      | Py.Ok h =>
          let next_delta := ExpRecurrentBroadcaster.next_delta b1 e h in
          (0 <= next_delta /\ outcome = Py.Ok next_delta) \/
          (next_delta < 0 /\ outcome = Py.Raise Py.AssertionError)
      end)
  /\
  (forall (b : ExpPredBroadcaster.t) (e : Event.t),
      let b1 := ExpPredBroadcaster.start b (Some e) in
      let outcome := fst (ExpPredBroadcaster.get_next_interval b (Some e)) in
      match ExpPredBroadcaster.update_hidden_state b1
              (Event.src_id e) (Event.time_delta e) with
      | Py.Raise ex => outcome = Py.Raise ex
      | Py.Ok h =>
          let next_delta := ExpPredBroadcaster.next_delta b1 e h in
          (0 <= next_delta /\ outcome = Py.Ok next_delta) \/
          (next_delta < 0 /\ outcome = Py.Raise Py.AssertionError)
      end)
  /\
  (forall (b : ExpRecurrentBroadcaster.t) (e : Event.t) (v : R),
      fst (ExpRecurrentBroadcaster.get_next_interval b (Some e)) = Py.Ok v -> 0 <= v)
  /\
  (forall (b : ExpPredBroadcaster.t) (e : Event.t) (v : R),
      fst (ExpPredBroadcaster.get_next_interval b (Some e)) = Py.Ok v -> 0 <= v)
  /\
  (forall b : ExpRecurrentBroadcaster.t,
      fst (ExpRecurrentBroadcaster.get_next_interval b None)
      = Py.Ok (fst (generate_sample (ExpRecurrentBroadcaster.exp_sampler b))))
  /\
  (forall b : ExpPredBroadcaster.t,
      fst (ExpPredBroadcaster.get_next_interval b None)
      = Py.Ok (fst (generate_sample (ExpPredBroadcaster.exp_sampler b)))).
Proof.
  assert (H1 : forall (b : ExpRecurrentBroadcaster.t) (e : Event.t),
      let b1 := ExpRecurrentBroadcaster.start b (Some e) in
      let outcome := fst (ExpRecurrentBroadcaster.get_next_interval b (Some e)) in
      match ExpRecurrentBroadcaster.update_hidden_state b1
              (Event.src_id e) (Event.time_delta e) with
      | Py.Raise ex => outcome = Py.Raise ex
      | Py.Ok h =>
          let next_delta := ExpRecurrentBroadcaster.next_delta b1 e h in
          (0 <= next_delta /\ outcome = Py.Ok next_delta) \/
          (next_delta < 0 /\ outcome = Py.Raise Py.AssertionError)
      end).
  { intros b e b1 outcome. subst outcome.
    unfold ExpRecurrentBroadcaster.get_next_interval. fold b1.
    destruct (ExpRecurrentBroadcaster.update_hidden_state b1 _ _) as [h|ex];
      [|reflexivity].
    unfold ExpRecurrentBroadcaster.next_delta.
    destruct (register_event _ _ _ _) as [next_post_time sm]. simpl.
    destruct (Rle_lt_dec 0 (next_post_time - ExpRecurrentBroadcaster.last_self_event_time b))
      as [Hd|Hd].
    - left. rewrite leb_true by exact Hd. auto.
    - right. rewrite leb_false by exact Hd. auto. }
  assert (H2 : forall (b : ExpPredBroadcaster.t) (e : Event.t),
      let b1 := ExpPredBroadcaster.start b (Some e) in
      let outcome := fst (ExpPredBroadcaster.get_next_interval b (Some e)) in
      match ExpPredBroadcaster.update_hidden_state b1
              (Event.src_id e) (Event.time_delta e) with
      | Py.Raise ex => outcome = Py.Raise ex
      | Py.Ok h =>
          let next_delta := ExpPredBroadcaster.next_delta b1 e h in
          (0 <= next_delta /\ outcome = Py.Ok next_delta) \/
          (next_delta < 0 /\ outcome = Py.Raise Py.AssertionError)
      end).
  { intros b e b1 outcome. subst outcome.
    unfold ExpPredBroadcaster.get_next_interval. fold b1.
    destruct (ExpPredBroadcaster.update_hidden_state b1 _ _) as [h|ex];
      [|reflexivity].
    unfold ExpPredBroadcaster.next_delta.
    destruct (register_event _ _ _ _) as [next_post_time sm]. simpl.
    destruct (Rle_lt_dec 0 (next_post_time - ExpPredBroadcaster.last_self_event_time b))
      as [Hd|Hd].
    - left. rewrite leb_true by exact Hd. auto.
    - right. rewrite leb_false by exact Hd. auto. }
  split; [exact H1|]. split; [exact H2|]. split; [|split; [|split]].
  - intros b e v E. specialize (H1 b e). cbv zeta in H1.
    destruct (ExpRecurrentBroadcaster.update_hidden_state _ _ _) as [h|ex].
    + destruct H1 as [[Hd Ho]|[_ Ho]]; rewrite Ho in E; inversion E; subst; assumption.
    + rewrite H1 in E. discriminate.
  - intros b e v E. specialize (H2 b e). cbv zeta in H2.
    destruct (ExpPredBroadcaster.update_hidden_state _ _ _) as [h|ex].
    + destruct H2 as [[Hd Ho]|[_ Ho]]; rewrite Ho in E; inversion E; subst; assumption.
    + rewrite H2 in E. discriminate.
  - intros b. unfold ExpRecurrentBroadcaster.get_next_interval. simpl.
    destruct (generate_sample _) as [sample sm]. reflexivity.
  - intros b. unfold ExpPredBroadcaster.get_next_interval. simpl.
    destruct (generate_sample _) as [sample sm]. reflexivity.
Qed.

Lemma get_next_interval_never_negative_witness :
  let tr := ExpRecurrentTrainer.init [[0]; [0]] [[0]] [0] [0] [0] [0] (-1) 0 [0]
              (SimOpts.mk 0 10 [1%nat]) 1 1 in
  let b := ExpRecurrentBroadcaster.mk (smp := Fixtures.scripted_sampler [])
             (env := Fixtures.empty_state) 0 false tr [0] [8] tt 5 in
  let e := Event.mk 1 6 6 in
  fst (ExpRecurrentBroadcaster.get_next_interval b (Some e)) = Py.Ok (8 - 5)
  /\ 0 <= 8 - 5.
Proof.
  intros tr b e.
  assert (E : fst (ExpRecurrentBroadcaster.get_next_interval b (Some e))
              = Py.Ok (8 - 5)).
  { cbn. rewrite leb_true by lra. reflexivity. }
  split; [exact E|].
  exact (proj1 (proj2 (proj2 get_next_interval_never_negative)) b e (8 - 5) E).
Defined.

(** The assertion at work: a sampler that announces the time [1] to a
    broadcaster whose own last event was at time [5]. *)
Example get_next_interval_asserts :
  let tr := ExpRecurrentTrainer.init [[0]; [0]] [[0]] [0] [0] [0] [0] (-1) 0 [0]
              (SimOpts.mk 0 10 [1%nat]) 1 1 in
  let b := ExpRecurrentBroadcaster.mk (smp := Fixtures.scripted_sampler [])
             (env := Fixtures.empty_state) 0 false tr [0] [1] tt 5 in
  fst (ExpRecurrentBroadcaster.get_next_interval b (Some (Event.mk 1 6 6)))
  = Py.Raise Py.AssertionError
  /\ fst (ExpRecurrentBroadcaster.get_next_interval b (Some (Event.mk 7 6 6)))
     = Py.Raise Py.KeyError
  /\ exists v, fst (ExpRecurrentBroadcaster.get_next_interval
                      (ExpRecurrentBroadcaster.mk (smp := Fixtures.scripted_sampler [])
                         (env := Fixtures.empty_state) 0 false tr [0] [8] tt 5)
                      (Some (Event.mk 1 6 6))) = Py.Ok v /\ v = 3.
Proof.
  cbn. repeat split.
  - rewrite leb_false by lra. reflexivity.
  - eexists. rewrite leb_true by lra. split; [reflexivity | lra].
Qed.

(** ** Restoring a checkpoint *)

(** With a checkpoint state in the directory, [restore] raises
    [FileNotFoundError] naming the epoch exactly when no path ends in the
    epoch's suffix, and otherwise restores the first path that does. *)
Lemma restore_with_state (get_checkpoint_state : string -> option TF.CheckpointState)
    (te : ExpRecurrentTeacher.t) (restore_dir : option string) (epoch : Z)
    (c : TF.CheckpointState) :
  get_checkpoint_state
    (match restore_dir with None => ExpRecurrentTeacher.save_dir te | Some d => d end)
  = Some c ->
  let suffix := ("-" ++ Str.of_int epoch)%string in
  let matches := filter (fun x => Str.endswith x suffix) (TF.all_model_checkpoint_paths c) in
  let outcome := ExpRecurrentTeacher.restore get_checkpoint_state te restore_dir (Some epoch) in
  (outcome = Py.Raise (Py.FileNotFoundError ("Epoch " ++ Str.of_int epoch ++ " not found."))
   <-> matches = []) /\
  (forall file rest, matches = file :: rest ->
     outcome = Py.Ok (ExpRecurrentTeacher.set_restored te file)).
Proof.
  intros E suffix matches outcome. subst outcome.
  unfold ExpRecurrentTeacher.restore. rewrite E. fold suffix. fold matches.
  destruct matches as [|file rest]; split.
  - tauto.
  - discriminate.
  - split; discriminate.
  - intros file' rest' E'. inversion E'. reflexivity.
Qed.

(** C9.  Required: [restore] with an [epoch_to_recover] raises the error
    "Epoch ... not found." exactly when no saved checkpoint matches the
    epoch.  Where the directory holds no checkpoint state,
    [tf.train.get_checkpoint_state] answers [None] and reading
    [all_model_checkpoint_paths] raises [AttributeError] instead. *)
Theorem restore_without_checkpoint_state :
  let te := ExpRecurrentTeacher.mk 0.001 1 true 0 0 16 "teacher-log" None in
  let empty_dir : string -> option TF.CheckpointState := fun _ => None in
  ExpRecurrentTeacher.restore empty_dir te None (Some 3%Z)
  = Py.Raise Py.AttributeError
  /\ ExpRecurrentTeacher.restore empty_dir te None (Some 3%Z)
     <> Py.Raise (Py.FileNotFoundError "Epoch 3 not found.").
Proof.
  cbn. split; [reflexivity | discriminate].
Qed.
